(** * A shallow embedding of [src/app.py] (Flask service: PDF text
    extraction, spreadsheet cleaning, PDF compression through Ghostscript).

    Python strings are sequences of Unicode code points; they are modelled
    as [list N].  The character database functions that the code relies on
    ([str.isalnum], [str.isspace], [str.lower], [str.capitalize]) belong to
    the Python runtime, not to this repository, so they are kept abstract in
    the class [PyUnicode]; [ascii_unicode] is an instance that is exact on
    ASCII input and is used to run the code on concrete ASCII strings. *)

From Stdlib Require Import String Ascii List Bool NArith ZArith Lia.
From Stdlib Require Import PrimFloat SpecFloat FloatOps.
Import ListNotations.
Open Scope N_scope.

(** ** Python string primitives *)

Definition pystr := list N.

Class PyUnicode := {
  py_isalnum : N -> bool;          (* str.isalnum on one code point *)
  py_isspace : N -> bool;          (* str.isspace on one code point; also re's \s *)
  py_lower : pystr -> pystr;       (* str.lower *)
  py_capitalize : pystr -> pystr   (* str.capitalize *)
}.

(** The Unicode database restricted to ASCII: exact for code points below
    128; every other code point is treated as caseless, not alphanumeric and
    not whitespace. *)
Definition ascii_isalnum (c : N) : bool :=
  ((48 <=? c) && (c <=? 57)) || ((65 <=? c) && (c <=? 90)) || ((97 <=? c) && (c <=? 122)).

Definition ascii_isspace (c : N) : bool :=
  ((9 <=? c) && (c <=? 13)) || ((28 <=? c) && (c <=? 32)).

Definition ascii_lower_char (c : N) : N :=
  if (65 <=? c) && (c <=? 90) then c + 32 else c.

Definition ascii_upper_char (c : N) : N :=
  if (97 <=? c) && (c <=? 122) then c - 32 else c.

Definition ascii_capitalize (s : pystr) : pystr :=
  match s with
  | [] => []
  | c :: r => ascii_upper_char c :: map ascii_lower_char r
  end.

#[export] Instance ascii_unicode : PyUnicode := {
  py_isalnum := ascii_isalnum;
  py_isspace := ascii_isspace;
  py_lower := map ascii_lower_char;
  py_capitalize := ascii_capitalize
}.

(** String literals of the source, as code points. *)
Fixpoint s2p (s : string) : pystr :=
  match s with
  | EmptyString => []
  | String a s' => N_of_ascii a :: s2p s'
  end.

Section PyStr.
Context {U : PyUnicode}.

(** [str.strip()] *)
Fixpoint lstrip (s : pystr) : pystr :=
  match s with
  | [] => []
  | c :: s' => if py_isspace c then lstrip s' else s
  end.

Definition strip (s : pystr) : pystr := rev (lstrip (rev (lstrip s))).

(** [str.split()] with no separator: maximal runs of non-whitespace,
    no empty tokens.  [cur] is the reversed current token. *)
Fixpoint split_go (cur : pystr) (s : pystr) : list pystr :=
  match s with
  | [] => match cur with [] => [] | _ => [rev cur] end
  | c :: s' =>
      if py_isspace c
      then match cur with
           | [] => split_go [] s'
           | _ => rev cur :: split_go [] s'
           end
      else split_go (c :: cur) s'
  end.

Definition split (s : pystr) : list pystr := split_go [] s.

(** [sep.join(l)] *)
Fixpoint join (sep : pystr) (l : list pystr) : pystr :=
  match l with
  | [] => []
  | [x] => x
  | x :: l' => x ++ sep ++ join sep l'
  end.

(** [x in s] for one character *)
Definition contains (c : N) (s : pystr) : bool := existsb (N.eqb c) s.

(** [s == t] *)
Fixpoint pystr_eqb (s t : pystr) : bool :=
  match s, t with
  | [], [] => true
  | a :: s', b :: t' => (a =? b) && pystr_eqb s' t'
  | _, _ => false
  end.

(** [s.endswith(suffix)] *)
Definition endswith (s suffix : pystr) : bool :=
  Nat.leb (List.length suffix) (List.length s)
  && pystr_eqb (skipn (List.length s - List.length suffix) s) suffix.

End PyStr.

(** ** [excel_cleaner]: cell cleaning (lines 112-125) *)

Record cleaning_options := {
  remove_duplicates : bool;
  clean_emails : bool;
  sanitize_characters : bool
}.

Section Clean.
Context {U : PyUnicode}.

(** Python's [\w] on str patterns: alphanumeric or the underscore. *)
Definition re_word (c : N) : bool := py_isalnum c || (c =? 95).

(** The class [[\w@.\sÀ-ÿ-]]: word characters, '@' (64), '.' (46),
    whitespace, the code points U+00C0..U+00FF, and '-' (45).
    [re.sub(r"[^\w@.\sÀ-ÿ-]", "", value)] keeps exactly these. *)
Definition sanitize_keep (c : N) : bool :=
  re_word c || (c =? 64) || (c =? 46) || py_isspace c
  || ((192 <=? c) && (c <=? 255)) || (c =? 45).

Definition sanitize (s : pystr) : pystr := filter sanitize_keep s.

(** [[^@\s]]: neither '@' nor whitespace *)
Definition not_at_space (c : N) : bool := negb (c =? 64) && negb (py_isspace c).

(** [(prefix before the first c, Some rest after it)] or [(s, None)]. *)
Fixpoint break_at (c : N) (s : pystr) : pystr * option pystr :=
  match s with
  | [] => ([], None)
  | x :: s' =>
      if x =? c then ([], Some s')
      else let '(l, r) := break_at c s' in (x :: l, r)
  end.

(** A '.' (46) that is neither the first nor the last character. *)
Fixpoint dot_not_last (s : pystr) : bool :=
  match s with
  | x :: ((_ :: _) as s') => (x =? 46) || dot_not_last s'
  | _ => false
  end.

Definition inner_dot (s : pystr) : bool :=
  match s with
  | [] => false
  | _ :: s' => dot_not_last s'
  end.

(** The whole string matches [[^@\s]+@[^@\s]+\.[^@\s]+].  The local part
    cannot contain '@', so the '@' is the first one; the domain is made of
    [[^@\s]] characters (dots included) with a dot that has at least one
    character on each side. *)
Definition email_core (s : pystr) : bool :=
  match break_at 64 s with
  | (l, Some r) =>
      negb (match l with [] => true | _ => false end)
      && forallb not_at_space l && forallb not_at_space r && inner_dot r
  | (_, None) => false
  end.

(** [re.match(r"^[^@\s]+@[^@\s]+\.[^@\s]+$", value)]: [re.match] anchors at
    the start, and [$] (without MULTILINE) matches at the end of the string
    or just before a newline (10) that ends it. *)
Definition email_match (s : pystr) : bool :=
  email_core s
  || (match rev s with 10 :: _ => true | _ => false end && email_core (removelast s)).

(** [clean_cell]; [None] is a missing value ([pd.isna]) and the
    [return None] of the source.  A present cell is given by [str(value)]. *)
Definition clean_cell (o : cleaning_options) (value : option pystr) : option pystr :=
  match value with
  | None => None
  | Some raw =>
      let v1 := strip raw in
      let v2 := if sanitize_characters o then sanitize v1 else v1 in
      if clean_emails o && contains 64 v2 then
        if email_match v2 then Some (py_lower v2) else None
      else Some (join [32] (map py_capitalize (split v2)))
  end.

End Clean.

Definition all_on : cleaning_options :=
  {| remove_duplicates := true; clean_emails := true; sanitize_characters := true |}.

(** ** [excel_cleaner]: the table (lines 127-130) *)

(** A row of the DataFrame: one cell per column, [None] for NaN/None. *)
Definition row := list (option pystr).

Definition row_eq_dec (a b : row) : {a = b} + {a <> b}.
Proof. repeat decide equality. Defined.

Definition row_eqb (a b : row) : bool := if row_eq_dec a b then true else false.

(** [DataFrame.duplicated(keep='first')]: a row is marked when an equal row
    has been seen before it. *)
Fixpoint duplicated_go (seen : list row) (rows : list row) : list bool :=
  match rows with
  | [] => []
  | r :: rs => existsb (row_eqb r) seen :: duplicated_go (r :: seen) rs
  end.

(** [df.drop_duplicates(inplace=True)]: keep the rows whose mask is false. *)
Definition drop_duplicates (rows : list row) : list row :=
  map fst (filter (fun p => negb (snd p)) (combine rows (duplicated_go [] rows))).

(** [df = df.applymap(clean_cell)] then, when [removeDuplicates] is
    ["true"], [drop_duplicates]. *)
Definition clean_table {U : PyUnicode} (o : cleaning_options) (rows : list row) : list row :=
  let df := map (map (clean_cell o)) rows in
  if remove_duplicates o then drop_duplicates df else df.

(** [drop_duplicates] with a set of rows already seen. *)
Definition dedup_from (seen rows : list row) : list row :=
  map fst (filter (fun p => negb (snd p)) (combine rows (duplicated_go seen rows))).

(** Refinement target, following the spec's words: row [i] is kept iff no
    row among the first [i] rows equals it, in the original order. *)
Definition keep_first_spec (rows : list row) : list row :=
  map fst (filter (fun p => negb (existsb (row_eqb (fst p)) (snd p)))
             (combine rows (map (fun i => firstn i rows) (seq 0 (length rows))))).

(** ** [extract_pdf] (lines 62-71) *)

Definition MAX_CHARS : nat := 10000.

Record extraction_result := {
  text : pystr;
  partial : bool;
  char_count : nat
}.

(** [pages] are the [page.get_text()] of the document, in order. *)
Definition extract_text (pages : list pystr) : extraction_result :=
  let full_text := join [10] pages in
  let '(is_partial, full_text) :=
    if Nat.ltb MAX_CHARS (length full_text)
    then (true, firstn MAX_CHARS full_text)
    else (false, full_text) in
  {| text := full_text; partial := is_partial; char_count := length full_text |}.

(** ** [pdf_compress]: size accounting (lines 210-217) *)

(** [float(z)]: the nearest binary64 value (exact below 2^53). *)
Definition float_of_Z (z : Z) : float := SF2Prim (binary_normalize prec emax z 0 false).

Definition float_of_N (n : N) : float := float_of_Z (Z.of_N n).

(** [n / d] rounded to the nearest integer, ties to even ([d > 0]). *)
Definition div_half_even (n d : Z) : Z :=
  let q := (n / d)%Z in
  let r := (n - q * d)%Z in
  match Z.compare (2 * r) d with
  | Lt => q
  | Gt => (q + 1)%Z
  | Eq => if Z.even q then q else (q + 1)%Z
  end.

(** [round(x, 2)] on a float: CPython rounds the exact binary value of [x]
    to two decimals (ties to even, [_Py_dg_dtoa] mode 3) and reads the
    decimal back as the nearest float; zeros, infinities and nan are
    returned unchanged.  The read-back [k / 100] is a single correctly
    rounded division, exact as CPython's for [|k| < 2^53]. *)
Definition py_round2 (x : float) : float :=
  match Prim2SF x with
  | S754_finite s m e =>
      let a := (Zpos m * 100)%Z in
      let k := if (0 <=? e)%Z then (a * 2 ^ e)%Z else div_half_even a (2 ^ (- e)) in
      let r := (float_of_Z k / float_of_Z 100)%float in
      if s then (- r)%float else r
  | _ => x
  end.

(** [round(100 * (1 - compressed_size / original_size), 2)]; [None] is the
    [ZeroDivisionError] of an empty input file.  [int / int] is the correctly
    rounded quotient (CPython's fast path for operands below 2^53). *)
Definition gain_percent (original_size compressed_size : N) : option float :=
  if original_size =? 0 then None
  else Some (py_round2 (float_of_Z 100 * (float_of_Z 1
                         - float_of_N compressed_size / float_of_N original_size))%float).

Definition gs_quality_map (mode : pystr) : option pystr :=
  if pystr_eqb mode (s2p "lossless") then Some (s2p "/prepress")
  else if pystr_eqb mode (s2p "moderate") then Some (s2p "/ebook")
  else if pystr_eqb mode (s2p "extreme") then Some (s2p "/screen")
  else None.

(** [gs_quality_map.get(mode, "/ebook")] *)
Definition gs_quality (mode : pystr) : pystr :=
  match gs_quality_map mode with Some q => q | None => s2p "/ebook" end.

Inductive alert_kind :=
  | AlertTryModerate   (* "Compression inefficace. Essayez le mode 'moderate' ..." *)
  | AlertHeavier.      (* "Compression inefficace : le fichier est plus lourd ..." *)

Definition alert_message (mode : pystr) (original_size compressed_size : N) : option alert_kind :=
  if original_size <=? compressed_size then
    if pystr_eqb mode (s2p "lossless") then Some AlertTryModerate else Some AlertHeavier
  else None.

(** ** Requests, responses and the world the handlers act on *)

(** An uploaded file, with what the parsing libraries make of its bytes:
    [fitz] page texts ([None]: [fitz.open] or [get_text] raises) and the
    pandas rows ([None]: [read_csv] / [read_excel] raises). *)
Record upload := {
  up_filename : pystr;
  up_size : N;
  up_pages : option (list pystr);
  up_table : option (list row)
}.

Record request := {
  req_file : option upload;               (* request.files["file"] *)
  req_form : list (pystr * pystr)         (* request.form *)
}.

(** [request.form.get(key)]: the first value of [key]. *)
Fixpoint form_get (key : pystr) (form : list (pystr * pystr)) : option pystr :=
  match form with
  | [] => None
  | (k, v) :: form' => if pystr_eqb k key then Some v else form_get key form'
  end.

Definition form_get_default (key default : pystr) (form : list (pystr * pystr)) : pystr :=
  match form_get key form with Some v => v | None => default end.

(** The JSON error bodies of the source, one constructor per message. *)
Inductive error_kind :=
  | MissingFile           (* "Aucun fichier ..." *)
  | UnsupportedFormat     (* "Le fichier doit être un PDF." / "Format non pris en charge ..." *)
  | ExtractionFailed      (* "Erreur lors de l'analyse du fichier." *)
  | MalformedSpreadsheet  (* "Erreur de lecture du fichier Excel ..." *)
  | NormalizationFailed   (* "Erreur de traitement Excel." *)
  | ConverterFailed       (* "Erreur lors de la compression Ghostscript." *)
  | CompressionFailed     (* "Erreur lors de la compression du PDF." *)
  | InternalServerError.  (* Flask's answer to an exception outside a handler *)

Record compress_report := {
  url : pystr;
  original_size : N;
  compressed_size : N;
  alert : option alert_kind;
  gain : float
}.

Inductive body :=
  | BError (e : error_kind)
  | BExtract (r : extraction_result)
  | BExcel (df : list row)          (* the cleaned frame given to [to_csv] *)
  | BCompress (r : compress_report).

Record response := { status : N; resp_body : body }.

Definition error (code : N) (e : error_kind) : response :=
  {| status := code; resp_body := BError e |}.

(** A file of the [static] directory, by name. *)
Record file_entry := { fe_name : pystr; fe_size : N; fe_mtime : Z }.

Inductive event :=
  | EvMkdir                        (* os.makedirs("static") created it *)
  | EvWrite (path : pystr)
  | EvDelete (path : pystr)
  | EvRun (argv : list pystr)      (* subprocess invocation *)
  | EvLogAppend (mode : pystr).    (* a line appended to compressions.log *)

Record world := {
  static_dir : option (list file_entry);   (* None: no "static" directory *)
  trace : list event
}.

(** What Ghostscript does with a command line: not found, or an exit code
    and the size of the file it left at [-sOutputFile], if any. *)
Inductive gs_outcome :=
  | GsNotFound
  | GsExit (code : Z) (output : option N).

(** Answers of the environment during one request. *)
Record env := {
  now : Z;                            (* time.time(), in seconds *)
  uuid_input : pystr;                 (* first uuid.uuid4().hex *)
  uuid_output : pystr;                (* second uuid.uuid4().hex *)
  is_darwin : bool;                   (* platform.system() == "Darwin" *)
  secure_filename : pystr -> pystr;   (* werkzeug.utils.secure_filename *)
  gs : list pystr -> gs_outcome;
  log_writable : bool                 (* open("compressions.log", "a") succeeds *)
}.

Inductive exc := CalledProcessError | OSError | ZeroDivisionError.

Inductive result (A : Type) := Ok (a : A) | Raise (e : exc).
Arguments Ok {A} a.
Arguments Raise {A} e.

(** Reader (env), state (world) and exceptions. *)
Definition M (A : Type) := env -> world -> result A * world.

Definition ret {A} (a : A) : M A := fun _ w => (Ok a, w).
Definition raise {A} (e : exc) : M A := fun _ w => (Raise e, w).
Definition bind {A B} (m : M A) (k : A -> M B) : M B :=
  fun en w => match m en w with
              | (Ok a, w') => k a en w'
              | (Raise e, w') => (Raise e, w')
              end.
Definition ask : M env := fun en w => (Ok en, w).
(** [try: m except: h] *)
Definition catch {A} (m : M A) (h : exc -> M A) : M A :=
  fun en w => match m en w with
              | (Raise e, w') => h e en w'
              | r => r
              end.

Notation "x <- m ;; k" := (bind m (fun x => k)) (at level 61, m at next level, right associativity).
Notation "m ;;; k" := (bind m (fun _ => k)) (at level 61, right associativity).

Definition emit (ev : event) (w : world) : world :=
  {| static_dir := static_dir w; trace := trace w ++ [ev] |}.

Definition static_path (name : pystr) : pystr := s2p "static/" ++ name.

Fixpoint lookup_file (name : pystr) (fs : list file_entry) : option file_entry :=
  match fs with
  | [] => None
  | f :: fs' => if pystr_eqb (fe_name f) name then Some f else lookup_file name fs'
  end.

Definition without (name : pystr) (fs : list file_entry) : list file_entry :=
  filter (fun f => negb (pystr_eqb (fe_name f) name)) fs.

(** [os.makedirs("static", exist_ok=True)] *)
Definition makedirs_static : M unit := fun _ w =>
  match static_dir w with
  | Some _ => (Ok tt, w)
  | None => (Ok tt, emit EvMkdir {| static_dir := Some []; trace := trace w |})
  end.

(** Write (create or truncate) [static/name] with [size] bytes. *)
Definition write_file (name : pystr) (size : N) : M unit := fun en w =>
  match static_dir w with
  | None => (Raise OSError, w)
  | Some fs =>
      let fe := {| fe_name := name; fe_size := size; fe_mtime := now en |} in
      (Ok tt, emit (EvWrite (static_path name))
                   {| static_dir := Some (without name fs ++ [fe]); trace := trace w |})
  end.

(** [os.path.getsize("static/" + name)] *)
Definition getsize (name : pystr) : M N := fun _ w =>
  match static_dir w with
  | None => (Raise OSError, w)
  | Some fs => match lookup_file name fs with
               | Some f => (Ok (fe_size f), w)
               | None => (Raise OSError, w)
               end
  end.

(** [os.remove("static/" + name)] *)
Definition remove (name : pystr) : M unit := fun _ w =>
  match static_dir w with
  | None => (Raise OSError, w)
  | Some fs => match lookup_file name fs with
               | Some _ => (Ok tt, emit (EvDelete (static_path name))
                                        {| static_dir := Some (without name fs); trace := trace w |})
               | None => (Raise OSError, w)
               end
  end.

(** [subprocess.run(argv, check=True)]; Ghostscript writes [static/out]. *)
Definition run_gs (argv : list pystr) (out : pystr) : M unit := fun en w =>
  let w := emit (EvRun argv) w in
  match gs en argv with
  | GsNotFound => (Raise OSError, w)
  | GsExit code output =>
      let w := match output with
               | Some n => snd (write_file out n en w)
               | None => w
               end in
      if (code =? 0)%Z then (Ok tt, w) else (Raise CalledProcessError, w)
  end.

(** [with open("compressions.log", "a") as logf: logf.write(...)] *)
Definition log_append (mode : pystr) : M unit := fun en w =>
  if log_writable en then (Ok tt, emit (EvLogAppend mode) w) else (Raise OSError, w).

(** ** The route handlers *)

(** Index of the last occurrence of [c]. *)
Fixpoint last_index_go (c : N) (i : nat) (s : pystr) (acc : option nat) : option nat :=
  match s with
  | [] => acc
  | x :: s' => last_index_go c (S i) s' (if x =? c then Some i else acc)
  end.

(** [os.path.splitext(p)[0]] for a name without '/' (as returned by
    [secure_filename]): cut at the last '.', unless only dots precede it. *)
Definition splitext_root (p : pystr) : pystr :=
  match last_index_go 46 0 p None with
  | None => p
  | Some i => if existsb (fun c => negb (c =? 46)) (firstn i p) then firstn i p else p
  end.

(** The Ghostscript command line of lines 185-200. *)
Definition compress_command (darwin : bool) (quality output input : pystr)
    (resolution : option pystr) : list pystr :=
  [if darwin then s2p "/opt/homebrew/bin/gs" else s2p "gs";
   s2p "-sDEVICE=pdfwrite";
   s2p "-dCompatibilityLevel=1.4";
   s2p "-dPDFSETTINGS=" ++ quality;
   s2p "-dNOPAUSE";
   s2p "-dQUIET";
   s2p "-dBATCH";
   s2p "-sOutputFile=" ++ static_path output;
   static_path input]
  ++ match resolution with
     | Some ((_ :: _) as r) => [s2p "-r" ++ r]
     | _ => []
     end.

Definition raise_if_none {A} (o : option A) (e : exc) : M A :=
  match o with Some a => ret a | None => raise e end.

Section Handlers.
Context {U : PyUnicode}.

(** The body of the [try] of [pdf_compress] (lines 162-229). *)
Definition compress_body (f : upload) (req : request) (basename mode : pystr) : M response :=
  en <- ask ;;
  makedirs_static ;;;
  let temp_input := basename ++ s2p "_input_" ++ uuid_input en ++ s2p ".pdf" in
  write_file temp_input (up_size f) ;;;
  original <- getsize temp_input ;;
  let filename := basename ++ s2p "_compressed_" ++ uuid_output en ++ s2p ".pdf" in
  let command := compress_command (is_darwin en) (gs_quality mode) filename temp_input
                   (form_get (s2p "resolution") (req_form req)) in
  run_gs command filename ;;;
  compressed <- getsize filename ;;
  remove temp_input ;;;
  g <- raise_if_none (gain_percent original compressed) ZeroDivisionError ;;
  let alert_msg := alert_message mode original compressed in
  log_append mode ;;;
  ret {| status := 200;
         resp_body := BCompress {| url := s2p "http://localhost:8000/static/" ++ filename;
                                   original_size := original;
                                   compressed_size := compressed;
                                   alert := alert_msg;
                                   gain := g |} |}.

Definition pdf_compress (req : request) : M response :=
  match req_file req with
  | None => ret (error 400 MissingFile)
  | Some f =>
      if negb (endswith (py_lower (up_filename f)) (s2p ".pdf"))
      then ret (error 400 UnsupportedFormat)
      else
        en <- ask ;;
        let basename := splitext_root (secure_filename en (up_filename f)) in
        let mode := form_get_default (s2p "mode") (s2p "lossless") (req_form req) in
        catch (compress_body f req basename mode)
          (fun e => match e with
                    | CalledProcessError => ret (error 500 ConverterFailed)
                    | _ => ret (error 500 CompressionFailed)
                    end)
  end.

Definition extract_pdf (req : request) : M response :=
  match req_file req with
  | None => ret (error 400 MissingFile)
  | Some f =>
      if negb (endswith (py_lower (up_filename f)) (s2p ".pdf"))
      then ret (error 400 UnsupportedFormat)
      else match up_pages f with
           | None => ret (error 500 ExtractionFailed)
           | Some pages => ret {| status := 200; resp_body := BExtract (extract_text pages) |}
           end
  end.

(** [request.form.get(key, "true") == "true"] *)
Definition form_flag (key : pystr) (form : list (pystr * pystr)) : bool :=
  pystr_eqb (form_get_default key (s2p "true") form) (s2p "true").

Definition excel_cleaner (req : request) : M response :=
  match req_file req with
  | None => ret (error 400 MissingFile)
  | Some f =>
      let filename := py_lower (up_filename f) in
      let o := {| remove_duplicates := form_flag (s2p "removeDuplicates") (req_form req);
                  clean_emails := form_flag (s2p "cleanEmails") (req_form req);
                  sanitize_characters := form_flag (s2p "sanitizeCharacters") (req_form req) |} in
      let cleaned rows := {| status := 200; resp_body := BExcel (clean_table o rows) |} in
      if endswith filename (s2p ".csv") then
        match up_table f with
        | Some rows => ret (cleaned rows)
        | None => ret (error 500 NormalizationFailed)
        end
      else if endswith filename (s2p ".xlsx") then
        match up_table f with
        | Some rows => ret (cleaned rows)
        | None => ret (error 400 MalformedSpreadsheet)
        end
      else ret (error 400 UnsupportedFormat)
  end.

(** [cleanup_old_files], run by Flask before every request. *)
Definition is_stale (cutoff : Z) (f : file_entry) : bool := (fe_mtime f <? cutoff)%Z.

Fixpoint remove_stale (cutoff : Z) (listing : list file_entry) : M unit :=
  match listing with
  | [] => ret tt
  | f :: fs =>
      (if is_stale cutoff f then catch (remove (fe_name f)) (fun _ => ret tt) else ret tt) ;;;
      remove_stale cutoff fs
  end.

Definition cleanup_old_files : M unit := fun en w =>
  match static_dir w with
  | None => (Raise OSError, w)          (* os.listdir("static") raises *)
  | Some listing => remove_stale (now en - 24 * 3600) listing en w
  end.

Inductive route := RExtract | RExcelCleaner | RPdfCompress.

Definition route_handler (r : route) : request -> M response :=
  match r with
  | RExtract => extract_pdf
  | RExcelCleaner => excel_cleaner
  | RPdfCompress => pdf_compress
  end.

(** One request: the [before_request] hook, then the route; an exception in
    the hook becomes Flask's 500 answer. *)
Definition handle (r : route) (req : request) : M response :=
  ok <- catch (cleanup_old_files ;;; ret true) (fun _ => ret false) ;;
  if ok then route_handler r req else ret (error 500 InternalServerError).

End Handlers.

(** ** Concrete inputs *)

Definition nl : string := String (ascii_of_nat 10) EmptyString.

(** A cell whose last character is not whitespace but is stripped by the
    sanitizer, leaving a newline at the end: "a@b.c\n!". *)
Definition cell_newline_bang : option pystr := Some (s2p ("a@b.c" ++ nl ++ "!")%string).

Definition sample_env (g : list pystr -> gs_outcome) : env :=
  {| now := 100000; uuid_input := s2p "u1"; uuid_output := s2p "u2"; is_darwin := false;
     secure_filename := fun s => s; gs := g; log_writable := true |}.

Definition empty_static : world := {| static_dir := Some []; trace := [] |}.

Definition sample_upload (name : string) (size : N) : upload :=
  {| up_filename := s2p name; up_size := size; up_pages := None; up_table := None |}.

(** The extensions each route accepts (lines 58, 101-110, 149). *)
Definition accepted_ext (r : route) (name : pystr) : bool :=
  match r with
  | RExtract | RPdfCompress => endswith name (s2p ".pdf")
  | RExcelCleaner => endswith name (s2p ".csv") || endswith name (s2p ".xlsx")
  end.

(** [static] holds one file written a day and more before [sample_env]'s clock. *)
Definition stale_static : world :=
  {| static_dir := Some [{| fe_name := s2p "old.pdf"; fe_size := 5; fe_mtime := 0 |}];
     trace := [] |}.

Definition no_email : cleaning_options :=
  {| remove_duplicates := true; clean_emails := false; sanitize_characters := true |}.

Definition sample_table : upload :=
  {| up_filename := s2p "Contacts.CSV"; up_size := 30; up_pages := None;
     up_table := Some [[Some (s2p " ann "); Some (s2p "A@B.FR")];
                       [Some (s2p "Ann"); Some (s2p "a@b.fr ")];
                       [None; Some (s2p "x@y")]] |}.

(** The trace with the mode text of the audit-log lines blanked out. *)
Definition erase_log_modes (tr : list event) : list event :=
  map (fun ev => match ev with EvLogAppend _ => EvLogAppend [] | e => e end) tr.

(** ** Auxiliary lemmas *)

Lemma pystr_eqb_eq : forall s t, pystr_eqb s t = true <-> s = t.
Proof.
  induction s as [|a s IH]; destruct t as [|b t]; simpl; try (split; congruence).
  rewrite andb_true_iff, IH, N.eqb_eq. split; [intros [-> ->]; reflexivity | intros H; injection H; auto].
Qed.

Lemma pystr_eqb_refl : forall s, pystr_eqb s s = true.
Proof. intros s; apply pystr_eqb_eq; reflexivity. Qed.

(** ** C1: truncation of the extracted text *)

(** Claim C1: for a request accepted by [/extract] (a [.pdf] name whose
    pages parse), the answer is [200] with [charCount = len(text)]; when the
    newline-joined page text has at most 10,000 characters it is returned
    whole with [partial = false]; otherwise [text] is its first 10,000
    characters, [partial = true] and [charCount = 10,000]. *)
Theorem extract_pdf_truncation {U : PyUnicode} (req : request) (f : upload)
    (pages : list pystr) (en : env) (w : world)
    (Hfile : req_file req = Some f)
    (Hpdf : endswith (py_lower (up_filename f)) (s2p ".pdf") = true)
    (Hpages : up_pages f = Some pages) :
  exists r,
    extract_pdf req en w = (Ok {| status := 200; resp_body := BExtract r |}, w)
    /\ char_count r = length (text r)
    /\ (Nat.le (length (join [10] pages)) MAX_CHARS ->
        r = {| text := join [10] pages; partial := false;
               char_count := length (join [10] pages) |})
    /\ (Nat.lt MAX_CHARS (length (join [10] pages)) ->
        text r = firstn MAX_CHARS (join [10] pages) /\ partial r = true
        /\ char_count r = MAX_CHARS).
Proof.
  exists (extract_text pages).
  unfold extract_pdf; rewrite Hfile, Hpdf, Hpages; cbn -[MAX_CHARS extract_text].
  split; [reflexivity|].
  unfold extract_text.
  destruct (Nat.ltb_spec MAX_CHARS (length (join [10] pages))) as [Hlt|Hle];
    cbn -[MAX_CHARS].
  - split; [reflexivity|].
    split; [intros H; exfalso; exact (proj1 (Nat.lt_nge _ _) Hlt H)|].
    intros _. split; [reflexivity|]. split; [reflexivity|].
    apply firstn_length_le, Nat.lt_le_incl, Hlt.
  - split; [reflexivity|]. split; [reflexivity|].
    intros H; exfalso; exact (proj1 (Nat.lt_nge _ _) H Hle).
Qed.

Lemma extract_pdf_truncation_witness :
  exists r,
    extract_pdf {| req_file := Some {| up_filename := s2p "Doc.PDF"; up_size := 10;
                                       up_pages := Some [s2p "ab"; s2p "c"]; up_table := None |};
                   req_form := [] |} (sample_env (fun _ => GsNotFound)) empty_static
    = (Ok {| status := 200; resp_body := BExtract r |}, empty_static)
    /\ char_count r = length (text r).
Proof.
  destruct (@extract_pdf_truncation ascii_unicode
              {| req_file := Some {| up_filename := s2p "Doc.PDF"; up_size := 10;
                                     up_pages := Some [s2p "ab"; s2p "c"]; up_table := None |};
                 req_form := [] |}
              {| up_filename := s2p "Doc.PDF"; up_size := 10;
                 up_pages := Some [s2p "ab"; s2p "c"]; up_table := None |}
              [s2p "ab"; s2p "c"] (sample_env (fun _ => GsNotFound)) empty_static
              eq_refl ltac:(vm_compute; reflexivity) eq_refl) as [r [H1 [H2 _]]].
  exists r. split; assumption.
Defined.

(** ** C3: the sanitizer's character class *)

(** Counterexample to claim C3.  The claim's class: alphanumeric, accented Latin letter, whitespace,
    '@', '.', '-'.  Counterexample: '_' (95) is none of these (it is not
    alphanumeric, not whitespace, not in U+00C0..U+00FF), yet cleaning with
    [sanitizeCharacters] keeps it: "a_b" cleans to "A_b". *)
Lemma sanitize_keeps_underscore :
  py_isalnum 95 = false /\ py_isspace 95 = false
  /\ negb ((192 <=? 95) && (95 <=? 255)) = true
  /\ clean_cell {| remove_duplicates := true; clean_emails := true; sanitize_characters := true |}
       (Some (s2p "a_b")) = Some (s2p "A_b").
Proof. vm_compute. repeat split. Qed.

(** Claim C3 (as amended): with [sanitizeCharacters], the sanitizer keeps,
    in order, exactly the characters that are alphanumeric, the underscore,
    whitespace, '@', '.', '-', or a code point in U+00C0..U+00FF, and
    removes every other character. *)
Theorem sanitize_keeps_exactly {U : PyUnicode} :
  forall s,
    sanitize s = filter (fun c => py_isalnum c || (c =? 95) || py_isspace c
                                  || (c =? 64) || (c =? 46) || (c =? 45)
                                  || ((192 <=? c) && (c <=? 255))) s
    /\ (forall c, In c (sanitize s) <->
          In c s /\ (py_isalnum c = true \/ c = 95 \/ py_isspace c = true
                     \/ c = 64 \/ c = 46 \/ c = 45 \/ (192 <= c <= 255))).
Proof.
  intros s. split.
  - apply filter_ext. intros c. unfold sanitize_keep, re_word.
    destruct (py_isalnum c), (c =? 95), (py_isspace c), (c =? 64), (c =? 46), (c =? 45),
      ((192 <=? c) && (c <=? 255)); reflexivity.
  - intros c. unfold sanitize. rewrite filter_In. unfold sanitize_keep, re_word.
    rewrite !orb_true_iff, !N.eqb_eq, andb_true_iff, !N.leb_le.
    split; intros [Hin H]; split; auto; tauto.
Qed.

(** ** C5, C6, C10: the email check accepts a value that ends with a newline *)

(** Claim C6 (code_bug): the spec's two examples hold, but "a@b.c\n!" is
    trimmed to itself ('!' is not whitespace), sanitized to "a@b.c\n", which
    contains '@' and whitespace; Python's [$] matches before the final
    newline, so the value is accepted and returned lower-cased with its
    newline instead of becoming absent. *)
Theorem email_shape_accepts_trailing_newline :
  clean_cell all_on (Some (s2p "John@Example.COM ")) = Some (s2p "john@example.com")
  /\ clean_cell all_on (Some (s2p "not-an-email@@x")) = None
  /\ sanitize (strip (s2p ("a@b.c" ++ nl ++ "!")%string)) = s2p ("a@b.c" ++ nl)%string
  /\ py_isspace 10 = true
  /\ email_match (s2p ("a@b.c" ++ nl)%string) = true
  /\ clean_cell all_on cell_newline_bang = Some (s2p ("a@b.c" ++ nl)%string).
Proof. vm_compute. repeat split. Qed.

(** Claim C5 (code_bug): cleaning "a@b.c\n!" gives "a@b.c\n"; cleaning that
    again strips the newline and gives "a@b.c". *)
Theorem clean_cell_not_idempotent_newline :
  clean_cell all_on cell_newline_bang = Some (s2p ("a@b.c" ++ nl)%string)
  /\ clean_cell all_on (clean_cell all_on cell_newline_bang) = Some (s2p "a@b.c")
  /\ clean_cell all_on (clean_cell all_on cell_newline_bang) <> clean_cell all_on cell_newline_bang.
Proof.
  split; [vm_compute; reflexivity|]. split; [vm_compute; reflexivity|].
  vm_compute. discriminate.
Qed.

(** Claim C10 (code_bug): on the email branch the cleaned value of
    "a@b.c\n!" ends with a whitespace character (newline). *)
Theorem email_branch_keeps_whitespace :
  exists r, clean_cell all_on cell_newline_bang = Some r
            /\ last r 0 = 10 /\ py_isspace (last r 0) = true.
Proof. exists (s2p ("a@b.c" ++ nl)%string). vm_compute. repeat split. Qed.

(** ** C2: the input artifact after a converter failure *)

(** Claim C2 (code_bug): "a.pdf" (1000 bytes) with a converter that exits
    with status 1: the answer is the handled 500 [ConverterFailed], and the
    input artifact [static/a_input_u1.pdf] is still on disk, never deleted. *)
Theorem converter_failure_keeps_input :
  pdf_compress {| req_file := Some (sample_upload "a.pdf" 1000); req_form := [] |}
    (sample_env (fun _ => GsExit 1 None)) empty_static
  = (Ok (error 500 ConverterFailed),
     {| static_dir := Some [{| fe_name := s2p "a_input_u1.pdf"; fe_size := 1000; fe_mtime := 100000 |}];
        trace := [EvWrite (s2p "static/a_input_u1.pdf");
                  EvRun (compress_command false (s2p "/prepress") (s2p "a_compressed_u2.pdf")
                           (s2p "a_input_u1.pdf") None)] |}).
Proof. vm_compute. reflexivity. Qed.

(** ** C7: [drop_duplicates] keeps first occurrences, in order *)

Lemma row_eqb_true : forall a b, row_eqb a b = true <-> a = b.
Proof. intros a b; unfold row_eqb; destruct (row_eq_dec a b); split; congruence. Qed.

Lemma row_eqb_false : forall a b, a <> b -> row_eqb a b = false.
Proof. intros a b H; unfold row_eqb; destruct (row_eq_dec a b); congruence. Qed.

Lemma combine_map_r {A B C} (f : B -> C) :
  forall (l : list A) (l' : list B),
    combine l (map f l') = map (fun p => (fst p, f (snd p))) (combine l l').
Proof. induction l as [|x l IH]; destruct l' as [|y l']; simpl; f_equal; auto. Qed.

Lemma prefixes_cons {A} (r : A) (rs : list A) :
  map (fun i => firstn i (r :: rs)) (seq 0 (length (r :: rs)))
  = [] :: map (cons r) (map (fun i => firstn i rs) (seq 0 (length rs))).
Proof.
  simpl length. simpl seq. rewrite <- seq_shift. cbn [map]. rewrite !map_map. reflexivity.
Qed.

(** The mask of [duplicated] marks a row iff it was in [seen] or equals a
    row before it. *)
Lemma drop_duplicates_go :
  forall rows seen,
    map fst (filter (fun p => negb (snd p)) (combine rows (duplicated_go seen rows)))
    = map fst (filter (fun p => negb (existsb (row_eqb (fst p)) seen
                                      || existsb (row_eqb (fst p)) (snd p)))
                 (combine rows (map (fun i => firstn i rows) (seq 0 (length rows))))).
Proof.
  induction rows as [|r rs IH]; intros seen; [reflexivity|].
  rewrite prefixes_cons. simpl combine. rewrite combine_map_r.
  cbn [filter fst snd existsb]. rewrite orb_false_r.
  destruct (existsb (row_eqb r) seen); simpl; [|f_equal]; rewrite IH, filter_map_swap, map_map; simpl;
    apply f_equal, filter_ext; intros [x b]; simpl;
    destruct (row_eqb x r), (existsb (row_eqb x) seen), (existsb (row_eqb x) b); reflexivity.
Qed.



Lemma drop_duplicates_spec : forall rows, drop_duplicates rows = keep_first_spec rows.
Proof. intros rows. unfold drop_duplicates, keep_first_spec. rewrite drop_duplicates_go. reflexivity. Qed.

(** Claim C7: with [removeDuplicates] on, the cleaned table is the cleaned
    rows with every row equal to an earlier one dropped, first occurrences
    kept, in the original order; in particular rows [A; B; A] whose two
    [A]s clean to the same row (different from [B]'s) give [A; B]. *)
Theorem clean_table_keeps_first_occurrences {U : PyUnicode} :
  forall ce sc rows,
    let o := {| remove_duplicates := true; clean_emails := ce; sanitize_characters := sc |} in
    clean_table o rows = keep_first_spec (map (map (clean_cell o)) rows)
    /\ (forall a b a', map (clean_cell o) a <> map (clean_cell o) b ->
          map (clean_cell o) a' = map (clean_cell o) a ->
          clean_table o [a; b; a'] = [map (clean_cell o) a; map (clean_cell o) b]).
Proof.
  intros ce sc rows o. split.
  - unfold clean_table. simpl. apply drop_duplicates_spec.
  - intros a b a' Hab Ha'. unfold clean_table, drop_duplicates. simpl.
    rewrite Ha'.
    assert (Hba : row_eqb (map (clean_cell o) b) (map (clean_cell o) a) = false)
      by (apply row_eqb_false; congruence).
    assert (Haa : row_eqb (map (clean_cell o) a) (map (clean_cell o) a) = true)
      by (apply row_eqb_true; reflexivity).
    rewrite Hba, Haa. simpl. rewrite orb_true_r. reflexivity.
Qed.

(** ** C9: requests with an unsupported extension *)

Lemma lookup_file_in : forall f fs, In f fs -> exists g, lookup_file (fe_name f) fs = Some g.
Proof.
  intros f; induction fs as [|g fs IH]; simpl; [tauto|].
  intros [->|Hin]; [rewrite pystr_eqb_refl; eauto|].
  destruct (pystr_eqb (fe_name g) (fe_name f)); eauto.
Qed.

Lemma without_unique : forall f kept l,
  NoDup (map fe_name (kept ++ f :: l)) -> without (fe_name f) (kept ++ f :: l) = kept ++ l.
Proof.
  intros f kept l Hnd. unfold without. rewrite filter_app. simpl.
  rewrite pystr_eqb_refl. simpl.
  rewrite map_app in Hnd. simpl in Hnd.
  apply NoDup_remove_2 in Hnd. rewrite in_app_iff in Hnd.
  f_equal; apply forallb_filter_id, forallb_forall; intros g Hg;
    destruct (pystr_eqb (fe_name g) (fe_name f)) eqn:E; auto;
    apply pystr_eqb_eq in E; exfalso; apply Hnd; rewrite <- E; [left|right]; apply in_map; exact Hg.
Qed.

(** The hook removes the stale files of the listing, one by one, in order. *)
Lemma remove_stale_spec : forall cutoff l kept tr en,
  NoDup (map fe_name (kept ++ l)) ->
  remove_stale cutoff l en {| static_dir := Some (kept ++ l); trace := tr |}
  = (Ok tt, {| static_dir := Some (kept ++ filter (fun g => negb (is_stale cutoff g)) l);
               trace := tr ++ map (fun g => EvDelete (static_path (fe_name g)))
                                  (filter (is_stale cutoff) l) |}).
Proof.
  intros cutoff l. induction l as [|f l IH]; intros kept tr en Hnd.
  - simpl. rewrite !app_nil_r. reflexivity.
  - simpl remove_stale. unfold bind.
    destruct (is_stale cutoff f) eqn:Hs; simpl.
    + unfold catch, remove. simpl.
      destruct (lookup_file_in f (kept ++ f :: l)) as [g Hg];
        [apply in_or_app; right; left; reflexivity|].
      rewrite Hg, without_unique by exact Hnd. unfold emit; simpl. rewrite Hs. simpl.
      rewrite IH.
      * rewrite <- app_assoc. reflexivity.
      * rewrite map_app in *. simpl in Hnd. apply NoDup_remove_1 in Hnd. exact Hnd.
    + unfold ret. rewrite Hs. simpl. replace (kept ++ f :: l) with ((kept ++ [f]) ++ l) by (rewrite <- app_assoc; reflexivity).
      rewrite IH by (rewrite <- app_assoc; exact Hnd).
      rewrite <- app_assoc. reflexivity.
Qed.

(** Counterexample to C9: a [.txt] upload to [/extract] gets the 400
    [UnsupportedFormat] answer, but the request deletes [static/old.pdf]:
    Flask runs [cleanup_old_files] before every route. *)
Lemma unsupported_extension_deletes_stale_file :
  handle RExtract {| req_file := Some (sample_upload "notes.txt" 10); req_form := [] |}
    (sample_env (fun _ => GsNotFound)) stale_static
  = (Ok (error 400 UnsupportedFormat),
     {| static_dir := Some []; trace := [EvDelete (s2p "static/old.pdf")] |}).
Proof. vm_compute. reflexivity. Qed.

(** Claim C9 (as amended): when the [static] directory exists, a request to
    any route whose file name (lower-cased) lacks the route's extension is
    answered 400 [UnsupportedFormat]; the route handler itself leaves the
    world unchanged (no write, delete or subprocess), and the only effects
    of the request are the deletions by the [before_request] hook of the
    files of [static] older than 24 hours. *)
Theorem unsupported_extension_only_cleanup {U : PyUnicode} :
  forall r req f en w fs,
    req_file req = Some f ->
    accepted_ext r (py_lower (up_filename f)) = false ->
    static_dir w = Some fs -> NoDup (map fe_name fs) ->
    route_handler r req en w = (Ok (error 400 UnsupportedFormat), w)
    /\ handle r req en w
       = (Ok (error 400 UnsupportedFormat),
          {| static_dir := Some (filter (fun g => negb (is_stale (now en - 24 * 3600) g)) fs);
             trace := trace w ++ map (fun g => EvDelete (static_path (fe_name g)))
                                     (filter (is_stale (now en - 24 * 3600)) fs) |}).
Proof.
  intros r req f en w fs Hfile Hext Hdir Hnd.
  assert (Hroute : forall w', route_handler r req en w' = (Ok (error 400 UnsupportedFormat), w')).
  { intros w'. destruct r; cbn [accepted_ext route_handler] in Hext |- *.
    - unfold extract_pdf. rewrite Hfile, Hext. reflexivity.
    - unfold excel_cleaner. rewrite Hfile.
      apply orb_false_iff in Hext. destruct Hext as [Hcsv Hxlsx].
      rewrite Hcsv, Hxlsx. reflexivity.
    - unfold pdf_compress. rewrite Hfile, Hext. reflexivity. }
  split; [apply Hroute|].
  destruct w as [d tr]; simpl in Hdir; subst d.
  unfold handle, bind, catch, cleanup_old_files. simpl static_dir.
  pose proof (remove_stale_spec (now en - 24 * 3600) fs [] tr en Hnd) as Hrs.
  simpl app in Hrs. cbv beta iota. rewrite Hrs. simpl.
  apply Hroute.
Qed.

Lemma unsupported_extension_only_cleanup_witness :
  route_handler RExtract {| req_file := Some (sample_upload "notes.txt" 10); req_form := [] |}
    (sample_env (fun _ => GsNotFound)) stale_static
  = (Ok (error 400 UnsupportedFormat), stale_static).
Proof.
  exact (proj1 (@unsupported_extension_only_cleanup ascii_unicode RExtract
    {| req_file := Some (sample_upload "notes.txt" 10); req_form := [] |}
    (sample_upload "notes.txt" 10) (sample_env (fun _ => GsNotFound)) stale_static
    [{| fe_name := s2p "old.pdf"; fe_size := 5; fe_mtime := 0 |}]
    eq_refl ltac:(vm_compute; reflexivity) eq_refl
    ltac:(repeat constructor; simpl; tauto))).
Defined.

(** ** C4: gain and alert of a successful compression *)

Lemma raise_if_none_ok {A} : forall (o : option A) e en w a w',
  raise_if_none o e en w = (Ok a, w') -> o = Some a.
Proof. intros [x|] e en w a w' H; simpl in H; unfold ret, raise in H; congruence. Qed.

Lemma compress_body_success {U : PyUnicode} : forall f req b mode en w r w',
  compress_body f req b mode en w = (Ok {| status := 200; resp_body := BCompress r |}, w') ->
  gain_percent (original_size r) (compressed_size r) = Some (gain r)
  /\ alert r = alert_message mode (original_size r) (compressed_size r).
Proof.
  intros f req b mode en w r w' H.
  unfold compress_body, bind, ask, ret in H. cbv beta iota zeta in H.
  repeat match type of H with
         | context [match ?x with _ => _ end] => destruct x eqn:?
         end; try discriminate H.
  injection H as Hr _. subst r. simpl. split; [|reflexivity].
  eapply raise_if_none_ok; eassumption.
Qed.

Lemma pdf_compress_success {U : PyUnicode} : forall req en w r w',
  pdf_compress req en w = (Ok {| status := 200; resp_body := BCompress r |}, w') ->
  exists f b mode,
    compress_body f req b mode en w = (Ok {| status := 200; resp_body := BCompress r |}, w').
Proof.
  intros req en w r w' H. unfold pdf_compress in H.
  destruct (req_file req) as [f|]; [|discriminate H].
  destruct (negb (endswith (py_lower (up_filename f)) (s2p ".pdf"))); [discriminate H|].
  unfold bind, ask, catch in H.
  destruct (compress_body f req _ _ en w) as [[x|e] w1] eqn:E.
  - injection H as Hx Hw. subst. eauto.
  - destruct e; discriminate H.
Qed.

Lemma alert_message_set : forall mode o c,
  alert_message mode o c <> None <-> o <= c.
Proof.
  intros mode o c. unfold alert_message.
  destruct (N.leb_spec o c); [destruct (pystr_eqb mode (s2p "lossless"))|];
    split; intros; try discriminate; try lia; congruence.
Qed.

(** Claim C4: in every successful [/pdf-compress] answer, [originalSize] is
    not zero, [gainPercent] is [round(100 * (1 - compressedSize /
    originalSize), 2)] computed in binary64, and [alert] is set exactly when
    [compressedSize >= originalSize]; 1,000,000 and 750,000 bytes give
    [25.0], and 1,000,000 and 1,100,000 bytes give an alert. *)
Theorem compress_gain_and_alert {U : PyUnicode} :
  forall req en w r w',
    pdf_compress req en w = (Ok {| status := 200; resp_body := BCompress r |}, w') ->
    original_size r <> 0
    /\ gain r = py_round2 (float_of_Z 100 * (float_of_Z 1
                  - float_of_N (compressed_size r) / float_of_N (original_size r)))%float
    /\ (alert r <> None <-> compressed_size r >= original_size r)
    /\ gain_percent 1000000 750000 = Some 25%float
    /\ (forall mode, alert_message mode 1000000 1100000 <> None).
Proof.
  intros req en w r w' H.
  destruct (pdf_compress_success req en w r w' H) as (f & b & mode & Hb).
  destruct (compress_body_success f req b mode en w r w' Hb) as [Hg Ha].
  unfold gain_percent in Hg.
  destruct (N.eqb_spec (original_size r) 0) as [|Hnz]; [discriminate Hg|].
  injection Hg as Hg.
  split; [exact Hnz|]. split; [symmetry; exact Hg|].
  split; [rewrite Ha, alert_message_set, N.ge_le_iff; reflexivity|].
  split; [vm_compute; reflexivity|].
  intros m. apply alert_message_set. lia.
Qed.

Lemma compress_gain_and_alert_witness :
  pdf_compress {| req_file := Some (sample_upload "a.pdf" 1000000); req_form := [] |}
    (sample_env (fun _ => GsExit 0 (Some 750000))) empty_static
  = (Ok {| status := 200;
           resp_body := BCompress {| url := s2p "http://localhost:8000/static/a_compressed_u2.pdf";
                                     original_size := 1000000; compressed_size := 750000;
                                     alert := None; gain := 25%float |} |},
     {| static_dir := Some [{| fe_name := s2p "a_compressed_u2.pdf"; fe_size := 750000;
                               fe_mtime := 100000 |}];
        trace := [EvWrite (s2p "static/a_input_u1.pdf");
                  EvRun (compress_command false (s2p "/prepress") (s2p "a_compressed_u2.pdf")
                           (s2p "a_input_u1.pdf") None);
                  EvWrite (s2p "static/a_compressed_u2.pdf");
                  EvDelete (s2p "static/a_input_u1.pdf");
                  EvLogAppend (s2p "lossless")] |})
  /\ 25%float = py_round2 (float_of_Z 100 * (float_of_Z 1
                  - float_of_N 750000 / float_of_N 1000000))%float.
Proof.
  assert (E : pdf_compress {| req_file := Some (sample_upload "a.pdf" 1000000); req_form := [] |}
    (sample_env (fun _ => GsExit 0 (Some 750000))) empty_static
  = (Ok {| status := 200;
           resp_body := BCompress {| url := s2p "http://localhost:8000/static/a_compressed_u2.pdf";
                                     original_size := 1000000; compressed_size := 750000;
                                     alert := None; gain := 25%float |} |},
     {| static_dir := Some [{| fe_name := s2p "a_compressed_u2.pdf"; fe_size := 750000;
                               fe_mtime := 100000 |}];
        trace := [EvWrite (s2p "static/a_input_u1.pdf");
                  EvRun (compress_command false (s2p "/prepress") (s2p "a_compressed_u2.pdf")
                           (s2p "a_input_u1.pdf") None);
                  EvWrite (s2p "static/a_compressed_u2.pdf");
                  EvDelete (s2p "static/a_input_u1.pdf");
                  EvLogAppend (s2p "lossless")] |})) by (vm_compute; reflexivity).
  split; [exact E|].
  exact (proj1 (proj2 (compress_gain_and_alert _ _ _ _ _ E))).
Defined.

(** ** C8: the [mode] form field *)

Lemma compress_body_mode {U : PyUnicode} : forall f req1 req2 b m1 m2 en w,
  form_get (s2p "resolution") (req_form req1) = form_get (s2p "resolution") (req_form req2) ->
  gs_quality m1 = gs_quality m2 ->
  pystr_eqb m1 (s2p "lossless") = pystr_eqb m2 (s2p "lossless") ->
  fst (compress_body f req1 b m1 en w) = fst (compress_body f req2 b m2 en w)
  /\ static_dir (snd (compress_body f req1 b m1 en w))
     = static_dir (snd (compress_body f req2 b m2 en w))
  /\ erase_log_modes (trace (snd (compress_body f req1 b m1 en w)))
     = erase_log_modes (trace (snd (compress_body f req2 b m2 en w))).
Proof.
  intros f req1 req2 b m1 m2 en w Hres Hq Hl.
  unfold compress_body, bind, ask, ret, alert_message, log_append.
  rewrite Hres, Hq, Hl. cbv beta iota zeta.
  repeat match goal with
         | |- context [match ?x with _ => _ end] =>
             match x with
             | context [match _ with _ => _ end] => fail 1
             | _ => destruct x; cbv beta iota zeta
             end
         end; cbn [fst snd static_dir trace emit]; repeat split;
    try (unfold erase_log_modes; rewrite !map_app; reflexivity).
Qed.

Lemma compress_body_resolution {U : PyUnicode} : forall f req1 req2 b mode,
  form_get (s2p "resolution") (req_form req1) = form_get (s2p "resolution") (req_form req2) ->
  compress_body f req1 b mode = compress_body f req2 b mode.
Proof. intros f req1 req2 b mode H. unfold compress_body. rewrite H. reflexivity. Qed.

(** Claim C8: without a [mode] field, [/pdf-compress] behaves exactly as
    with [mode=lossless], whose profile is [/prepress]; with a [mode]
    outside [lossless], [moderate], [extreme] the profile is [/ebook], the
    one of [moderate], and the request behaves as with [mode=moderate]:
    same answer (so no error of its own), same files, same events (the
    Ghostscript command line included), the audit-log line recording the
    mode text apart. *)
Theorem compress_mode_fallback {U : PyUnicode} :
  forall file form en w m,
    pystr_eqb m (s2p "lossless") = false ->
    pystr_eqb m (s2p "moderate") = false ->
    pystr_eqb m (s2p "extreme") = false ->
    (form_get (s2p "mode") form = None ->
       pdf_compress {| req_file := file; req_form := form |} en w
       = pdf_compress {| req_file := file; req_form := (s2p "mode", s2p "lossless") :: form |} en w)
    /\ gs_quality (s2p "lossless") = s2p "/prepress"
    /\ gs_quality m = gs_quality (s2p "moderate")
    /\ (let '(r1, w1) := pdf_compress {| req_file := file; req_form := (s2p "mode", m) :: form |} en w in
        let '(r2, w2) := pdf_compress {| req_file := file;
                                         req_form := (s2p "mode", s2p "moderate") :: form |} en w in
        r1 = r2 /\ static_dir w1 = static_dir w2
        /\ erase_log_modes (trace w1) = erase_log_modes (trace w2)).
Proof.
  intros file form en w m H1 H2 H3.
  assert (Hq : gs_quality m = gs_quality (s2p "moderate"))
    by (unfold gs_quality, gs_quality_map; rewrite H1, H2, H3; reflexivity).
  split; [|split; [reflexivity|split; [exact Hq|]]].
  - intros Hnone. unfold pdf_compress. destruct file as [f|]; [|reflexivity].
    cbn [req_file req_form].
    destruct (negb (endswith (py_lower (up_filename f)) (s2p ".pdf"))); [reflexivity|].
    unfold bind, ask, catch, form_get_default. rewrite Hnone.
    rewrite (compress_body_resolution f {| req_file := Some f; req_form := form |}
               {| req_file := Some f; req_form := (s2p "mode", s2p "lossless") :: form |});
      [reflexivity|]. simpl. reflexivity.
  - unfold pdf_compress. destruct file as [f|]; [|repeat split].
    cbn [req_file req_form].
    destruct (negb (endswith (py_lower (up_filename f)) (s2p ".pdf"))); [repeat split|].
    unfold bind, ask, catch, form_get_default. cbn [form_get]. rewrite pystr_eqb_refl.
    cbv iota.
    set (req1 := {| req_file := Some f; req_form := (s2p "mode", m) :: form |}).
    set (req2 := {| req_file := Some f; req_form := (s2p "mode", s2p "moderate") :: form |}).
    set (b := splitext_root (secure_filename en (up_filename f))).
    destruct (compress_body_mode f req1 req2 b m (s2p "moderate") en w)
      as [Hr [Hs Ht]]; [reflexivity|exact Hq|rewrite H1; reflexivity|].
    destruct (compress_body f req1 b m en w) as [r1 w1].
    destruct (compress_body f req2 b (s2p "moderate") en w) as [r2 w2].
    simpl in Hr, Hs, Ht. subst r2.
    destruct r1 as [x|e]; [|destruct e]; simpl; auto.
Qed.

Lemma compress_mode_fallback_witness :
  gs_quality (s2p "fast") = gs_quality (s2p "moderate").
Proof.
  exact (proj1 (proj2 (proj2 (@compress_mode_fallback ascii_unicode
    (Some (sample_upload "a.pdf" 1000)) [] (sample_env (fun _ => GsExit 0 (Some 900)))
    empty_static (s2p "fast") eq_refl eq_refl eq_refl)))).
Defined.

(** * Further properties of the handlers *)

(** Facts about [strip], [split], [join] and [sanitize]. *)
Section StrFacts.
Context {U : PyUnicode}.

Lemma lstrip_in : forall s c, In c (lstrip s) -> In c s.
Proof.
  induction s as [|x s IH]; simpl; [tauto|].
  intros c. destruct (py_isspace x); auto.
Qed.

Lemma strip_in : forall s c, In c (strip s) -> In c s.
Proof.
  intros s c H. unfold strip in H. rewrite <- in_rev in H.
  apply lstrip_in in H. rewrite <- in_rev in H. apply lstrip_in, H.
Qed.

Lemma sanitize_in : forall s c, In c (sanitize s) -> In c s.
Proof. intros s c H. unfold sanitize in H. apply filter_In in H. tauto. Qed.

Lemma split_go_in : forall s cur w c,
  In w (split_go cur s) -> In c w -> In c cur \/ In c s.
Proof.
  induction s as [|x s IH]; intros cur w c Hw Hc; simpl in Hw.
  - destruct cur as [|y cur]; simpl in Hw; [contradiction|].
    destruct Hw as [<-|[]]. left. rewrite in_rev. exact Hc.
  - destruct (py_isspace x).
    + destruct cur as [|y cur].
      * destruct (IH [] w c Hw Hc) as [[]|H]. right; right; exact H.
      * destruct Hw as [<-|Hw].
        -- left. rewrite in_rev. exact Hc.
        -- destruct (IH [] w c Hw Hc) as [[]|H]. right; right; exact H.
    + destruct (IH (x :: cur) w c Hw Hc) as [[->|H]|H]; simpl; auto.
Qed.

Lemma split_in : forall s w c, In w (split s) -> In c w -> In c s.
Proof. intros s w c Hw Hc. destruct (split_go_in s [] w c Hw Hc) as [[]|H]; exact H. Qed.

Lemma in_join : forall sep ws c,
  In c (join sep ws) -> In c sep \/ exists w, In w ws /\ In c w.
Proof.
  intros sep ws c. induction ws as [|w ws IH]; simpl; [tauto|].
  destruct ws as [|w' ws'].
  - intros H. right. exists w. simpl. auto.
  - intros H. apply in_app_or in H as [H|H]; [right; exists w; simpl; auto|].
    apply in_app_or in H as [H|H]; [left; exact H|].
    destruct (IH H) as [H'|[w0 [Hw0 Hc]]]; [left; exact H'|].
    right. exists w0. split; [right; exact Hw0|exact Hc].
Qed.

Lemma split_go_words : forall s cur,
  forallb (fun c => negb (py_isspace c)) cur = true ->
  Forall (fun w => w <> [] /\ forallb (fun c => negb (py_isspace c)) w = true) (split_go cur s).
Proof.
  induction s as [|x s IH]; intros cur Hcur; simpl.
  - destruct cur as [|y cur]; constructor; [|constructor].
    split.
    + intros H. apply (f_equal (@length N)) in H. rewrite length_rev in H. discriminate H.
    + apply forallb_forall. intros c Hc. rewrite <- in_rev in Hc.
      rewrite forallb_forall in Hcur. apply Hcur, Hc.
  - destruct (py_isspace x) eqn:Hx.
    + destruct cur as [|y cur]; [apply IH; reflexivity|].
      constructor; [|apply IH; reflexivity].
      split.
      * intros H. apply (f_equal (@length N)) in H. rewrite length_rev in H. discriminate H.
      * apply forallb_forall. intros c Hc. rewrite <- in_rev in Hc.
        rewrite forallb_forall in Hcur. apply Hcur, Hc.
    + apply IH. simpl. rewrite Hx. exact Hcur.
Qed.

Lemma split_words : forall s,
  Forall (fun w => w <> [] /\ forallb (fun c => negb (py_isspace c)) w = true) (split s).
Proof. intros s. apply split_go_words. reflexivity. Qed.

Lemma split_go_app : forall w cur s,
  forallb (fun c => negb (py_isspace c)) w = true -> split_go cur (w ++ s) = split_go (rev w ++ cur) s.
Proof.
  induction w as [|x w IH]; intros cur s Hw; [reflexivity|].
  simpl in Hw. apply andb_prop in Hw as [Hx Hw].
  simpl. destruct (py_isspace x); [discriminate Hx|].
  rewrite IH by exact Hw. rewrite <- app_assoc. reflexivity.
Qed.

Lemma split_join : forall ws,
  py_isspace 32 = true ->
  Forall (fun w => w <> [] /\ forallb (fun c => negb (py_isspace c)) w = true) ws ->
  split (join [32] ws) = ws.
Proof.
  intros ws Hsp. unfold split. induction ws as [|w ws IH]; intros Hf; [reflexivity|].
  inversion Hf as [|? ? [Hne Hw] Hf']; subst.
  destruct ws as [|w' ws'].
  - simpl join. rewrite <- (app_nil_r w) at 1. rewrite split_go_app by exact Hw.
    rewrite app_nil_r. simpl. destruct (rev w) as [|y t] eqn:E.
    + exfalso. apply Hne. rewrite <- (rev_involutive w), E. reflexivity.
    + rewrite <- E, rev_involutive. reflexivity.
  - change (join [32] (w :: w' :: ws')) with (w ++ [32] ++ join [32] (w' :: ws')).
    set (J := join [32] (w' :: ws')) in *.
    rewrite split_go_app by exact Hw. rewrite app_nil_r. simpl. rewrite Hsp.
    destruct (rev w) as [|y t] eqn:E.
    + exfalso. apply Hne. rewrite <- (rev_involutive w), E. reflexivity.
    + rewrite <- E, rev_involutive, IH by exact Hf'. reflexivity.
Qed.

Lemma lstrip_nows : forall c t, py_isspace c = false -> lstrip (c :: t) = c :: t.
Proof. intros c t H. simpl. rewrite H. reflexivity. Qed.

Lemma join_first : forall ws,
  Forall (fun w => w <> [] /\ forallb (fun c => negb (py_isspace c)) w = true) ws -> ws <> [] ->
  exists c t, join [32] ws = c :: t /\ py_isspace c = false.
Proof.
  intros [|w ws] Hf Hne; [congruence|].
  inversion Hf as [|? ? [Hw Hnw] _]; subst.
  destruct w as [|c t]; [congruence|].
  simpl in Hnw. apply andb_prop in Hnw as [Hc _].
  apply negb_true_iff in Hc.
  destruct ws; simpl; eauto.
Qed.

Lemma join_last : forall ws,
  Forall (fun w => w <> [] /\ forallb (fun c => negb (py_isspace c)) w = true) ws -> ws <> [] ->
  exists t c, join [32] ws = t ++ [c] /\ py_isspace c = false.
Proof.
  induction ws as [|w ws IH]; intros Hf Hne; [congruence|].
  inversion Hf as [|? ? [Hw Hnw] Hf']; subst.
  destruct ws as [|w' ws'].
  - destruct (exists_last Hw) as [t [c ->]]. exists t, c. split; [reflexivity|].
    rewrite forallb_app in Hnw. simpl in Hnw. rewrite andb_true_r in Hnw.
    apply andb_prop in Hnw as [_ Hc]. apply negb_true_iff, Hc.
  - destruct (IH Hf') as [t [c [E Hc]]]; [discriminate|].
    exists (w ++ [32] ++ t), c. split; [|exact Hc].
    change (join [32] (w :: w' :: ws')) with (w ++ [32] ++ join [32] (w' :: ws')).
    rewrite E, !app_assoc. reflexivity.
Qed.

Lemma strip_join : forall ws,
  Forall (fun w => w <> [] /\ forallb (fun c => negb (py_isspace c)) w = true) ws ->
  strip (join [32] ws) = join [32] ws.
Proof.
  intros ws Hf. destruct ws as [|w ws]; [reflexivity|].
  destruct (join_first (w :: ws) Hf ltac:(discriminate)) as [c [t [E1 Hc]]].
  destruct (join_last (w :: ws) Hf ltac:(discriminate)) as [t' [c' [E2 Hc']]].
  unfold strip. rewrite E1, lstrip_nows by exact Hc. rewrite <- E1, E2.
  rewrite rev_app_distr. simpl. rewrite Hc'. simpl. rewrite rev_involutive. reflexivity.
Qed.

End StrFacts.

(** A value accepted by [email_match] holds exactly one ['@']. *)
Lemma break_at_some : forall c s l r,
  break_at c s = (l, Some r) -> s = l ++ c :: r /\ ~ In c l.
Proof.
  intros c; induction s as [|x s IH]; intros l r H; simpl in H; [discriminate|].
  destruct (N.eqb_spec x c) as [->|Hne].
  - injection H as Hl Hr. subst. split; [reflexivity|simpl; tauto].
  - destruct (break_at c s) as [l' r'] eqn:E. injection H as Hl Hr. subst.
    destruct (IH l' r eq_refl) as [-> Hn]. split; [reflexivity|].
    intros [->|Hin]; [congruence|tauto].
Qed.

Lemma not_at_space_no_at {U : PyUnicode} : forall l,
  forallb not_at_space l = true -> ~ In 64 l.
Proof.
  intros l H Hin. rewrite forallb_forall in H. specialize (H 64 Hin). discriminate H.
Qed.

Lemma email_core_count {U : PyUnicode} : forall s,
  email_core s = true -> count_occ N.eq_dec s 64 = 1%nat.
Proof.
  intros s. unfold email_core. destruct (break_at 64 s) as [l [r|]] eqn:E; [|discriminate].
  intros H. apply andb_prop in H as [H _]. apply andb_prop in H as [H Hr].
  apply andb_prop in H as [_ Hl].
  destruct (break_at_some _ _ _ _ E) as [-> Hn].
  rewrite count_occ_app, count_occ_cons_eq by reflexivity.
  rewrite (proj1 (count_occ_not_In N.eq_dec l 64) Hn).
  rewrite (proj1 (count_occ_not_In N.eq_dec r 64) (not_at_space_no_at r Hr)).
  reflexivity.
Qed.

Lemma email_match_count {U : PyUnicode} : forall s,
  email_match s = true -> count_occ N.eq_dec s 64 = 1%nat.
Proof.
  intros s H. unfold email_match in H. apply orb_prop in H as [H|H]; [apply email_core_count, H|].
  apply andb_prop in H as [Hl H].
  induction s as [|x s' _] using rev_ind; [discriminate Hl|].
  rewrite rev_app_distr in Hl. change (rev [x] ++ rev s') with (x :: rev s') in Hl.
  assert (Hx : x = 10).
  { destruct x as [|p]; [discriminate Hl|].
    repeat (destruct p as [p|p|]; cbn in Hl; try discriminate Hl); reflexivity. }
  subst x.
  rewrite removelast_last in H. rewrite count_occ_app. rewrite (email_core_count s' H).
  rewrite count_occ_cons_neq by discriminate. reflexivity.
Qed.

(** Facts about the ASCII instance [ascii_unicode]. *)
Ltac leb_cases :=
  repeat match goal with
         | |- context [?a <=? ?b] =>
             lazymatch a with context [if _ then _ else _] => fail | _ =>
             lazymatch b with context [if _ then _ else _] => fail | _ =>
             destruct (N.leb_spec a b); simpl end end
         end; try reflexivity; try lia.

Lemma ascii_isspace_upper : forall c, ascii_isspace (ascii_upper_char c) = ascii_isspace c.
Proof. intros c. unfold ascii_upper_char, ascii_isspace. leb_cases. Qed.

Lemma ascii_isspace_lower : forall c, ascii_isspace (ascii_lower_char c) = ascii_isspace c.
Proof. intros c. unfold ascii_lower_char, ascii_isspace. leb_cases. Qed.

Lemma ascii_upper_at : forall c, ascii_upper_char c = 64 <-> c = 64.
Proof. intros c. unfold ascii_upper_char. leb_cases; split; intros; lia. Qed.

Lemma ascii_lower_at : forall c, ascii_lower_char c = 64 <-> c = 64.
Proof. intros c. unfold ascii_lower_char. leb_cases; split; intros; lia. Qed.

Lemma count_map_at : forall (f : N -> N) s,
  (forall c, f c = 64 <-> c = 64) ->
  count_occ N.eq_dec (map f s) 64 = count_occ N.eq_dec s 64.
Proof.
  intros f s Hf. induction s as [|c s IH]; [reflexivity|]. simpl.
  destruct (N.eq_dec (f c) 64) as [E|E], (N.eq_dec c 64) as [E'|E'];
    [rewrite IH; reflexivity| |exfalso; apply E, Hf, E'|exact IH].
  exfalso. apply E', Hf, E.
Qed.

Lemma ascii_lower_count_at : forall s,
  count_occ N.eq_dec (map ascii_lower_char s) 64 = count_occ N.eq_dec s 64.
Proof. intros s. apply count_map_at, ascii_lower_at. Qed.

Lemma ascii_capitalize_count_at : forall s,
  count_occ N.eq_dec (ascii_capitalize s) 64 = count_occ N.eq_dec s 64.
Proof.
  intros [|c s]; [reflexivity|]. simpl ascii_capitalize.
  change (ascii_upper_char c :: map ascii_lower_char s) with ([ascii_upper_char c] ++ map ascii_lower_char s).
  change (c :: s) with ([c] ++ s). rewrite !count_occ_app, ascii_lower_count_at.
  f_equal. apply (count_map_at ascii_upper_char [c]), ascii_upper_at.
Qed.

Lemma ascii_capitalize_word : forall w,
  w <> [] -> forallb (fun c => negb (ascii_isspace c)) w = true ->
  ascii_capitalize w <> [] /\ forallb (fun c => negb (ascii_isspace c)) (ascii_capitalize w) = true.
Proof.
  intros [|c w] Hne Hw; [congruence|]. split; [discriminate|].
  simpl in *. rewrite ascii_isspace_upper. apply andb_prop in Hw as [Hc Hw]. rewrite Hc. simpl.
  apply forallb_forall. intros x Hx. apply in_map_iff in Hx as [y [<- Hy]].
  rewrite ascii_isspace_lower. rewrite forallb_forall in Hw. apply Hw, Hy.
Qed.

Lemma ascii_upper_idem : forall c, ascii_upper_char (ascii_upper_char c) = ascii_upper_char c.
Proof. intros c. unfold ascii_upper_char. leb_cases. Qed.

Lemma ascii_lower_idem : forall c, ascii_lower_char (ascii_lower_char c) = ascii_lower_char c.
Proof. intros c. unfold ascii_lower_char. leb_cases. Qed.

Lemma ascii_capitalize_idem : forall w, ascii_capitalize (ascii_capitalize w) = ascii_capitalize w.
Proof.
  intros [|c w]; [reflexivity|]. simpl. rewrite ascii_upper_idem, map_map.
  f_equal. apply map_ext, ascii_lower_idem.
Qed.

Lemma ascii_keep_upper : forall c, sanitize_keep (U := ascii_unicode) c = true ->
  sanitize_keep (U := ascii_unicode) (ascii_upper_char c) = true.
Proof.
  intros c H. unfold ascii_upper_char. destruct ((97 <=? c) && (c <=? 122)) eqn:E; [|exact H].
  apply andb_prop in E as [E1 E2]. apply N.leb_le in E1, E2.
  unfold sanitize_keep, re_word. simpl. unfold ascii_isalnum.
  assert (H1 : (65 <=? c - 32) = true) by (apply N.leb_le; lia).
  assert (H2 : (c - 32 <=? 90) = true) by (apply N.leb_le; lia).
  rewrite H1, H2. rewrite !orb_true_r. reflexivity.
Qed.

Lemma ascii_keep_lower : forall c, sanitize_keep (U := ascii_unicode) c = true ->
  sanitize_keep (U := ascii_unicode) (ascii_lower_char c) = true.
Proof.
  intros c H. unfold ascii_lower_char. destruct ((65 <=? c) && (c <=? 90)) eqn:E; [|exact H].
  apply andb_prop in E as [E1 E2]. apply N.leb_le in E1, E2.
  unfold sanitize_keep, re_word. simpl. unfold ascii_isalnum.
  assert (H1 : (97 <=? c + 32) = true) by (apply N.leb_le; lia).
  assert (H2 : (c + 32 <=? 122) = true) by (apply N.leb_le; lia).
  rewrite H1, H2. rewrite !orb_true_r. reflexivity.
Qed.

(** [clean_cell] (lines 112-125): a present cell becomes missing only
    through the email check: [cleanEmails] is on and the raw value already
    contains an ['@']. *)
Theorem clean_cell_none_only_email {U : PyUnicode} : forall o raw,
  clean_cell o (Some raw) = None -> clean_emails o = true /\ In 64 raw.
Proof.
  intros o raw. unfold clean_cell.
  set (v := if sanitize_characters o then sanitize (strip raw) else strip raw).
  destruct (clean_emails o && contains 64 v) eqn:Hb; [|discriminate].
  intros _. apply andb_prop in Hb as [He Hc]. split; [exact He|].
  unfold contains in Hc. apply existsb_exists in Hc as [x [Hx Hx64]].
  apply N.eqb_eq in Hx64. subst x.
  apply strip_in. unfold v in Hx. destruct (sanitize_characters o); [apply sanitize_in|]; exact Hx.
Qed.

Lemma clean_cell_none_only_email_witness :
  @clean_cell ascii_unicode all_on (Some (s2p "x@y")) = None
  /\ clean_emails all_on = true /\ In 64 (s2p "x@y").
Proof.
  assert (E : @clean_cell ascii_unicode all_on (Some (s2p "x@y")) = None) by (vm_compute; reflexivity).
  split; [exact E|exact (clean_cell_none_only_email _ _ E)].
Defined.

(** [clean_cell] off the email branch: the result is a list of non-empty
    whitespace-free words joined by single spaces, which [split] gives back
    and [strip] leaves unchanged (for any character database whose
    [capitalize] keeps such words whitespace-free and in which the space is
    whitespace). *)
Theorem clean_cell_words_normalized {U : PyUnicode}
  (Hcap : forall w, w <> [] -> forallb (fun c => negb (py_isspace c)) w = true ->
          py_capitalize w <> [] /\ forallb (fun c => negb (py_isspace c)) (py_capitalize w) = true)
  (Hsp : py_isspace 32 = true) :
  forall o raw r, clean_emails o = false -> clean_cell o (Some raw) = Some r ->
    exists ws, r = join [32] ws
      /\ Forall (fun w => w <> [] /\ forallb (fun c => negb (py_isspace c)) w = true) ws
      /\ split r = ws /\ strip r = r.
Proof.
  intros o raw r He H. unfold clean_cell in H. rewrite He in H. simpl in H.
  injection H as <-.
  set (v := if sanitize_characters o then sanitize (strip raw) else strip raw).
  assert (Hf : Forall (fun w => w <> [] /\ forallb (fun c => negb (py_isspace c)) w = true)
                      (map py_capitalize (split v))).
  { apply Forall_map. eapply Forall_impl; [|apply split_words].
    intros w [Hne Hw]. apply Hcap; assumption. }
  exists (map py_capitalize (split v)). split; [reflexivity|]. split; [exact Hf|].
  split; [apply split_join; assumption|apply strip_join; exact Hf].
Qed.

Lemma clean_cell_words_normalized_witness :
  @clean_cell ascii_unicode no_email (Some (s2p "  hello   wORLD ")) = Some (s2p "Hello World")
  /\ exists ws, s2p "Hello World" = join [32] ws
      /\ Forall (fun w => w <> [] /\ forallb (fun c => negb (ascii_isspace c)) w = true) ws
      /\ @split ascii_unicode (s2p "Hello World") = ws /\ @strip ascii_unicode (s2p "Hello World") = s2p "Hello World".
Proof.
  assert (E : @clean_cell ascii_unicode no_email (Some (s2p "  hello   wORLD ")) = Some (s2p "Hello World"))
    by (vm_compute; reflexivity).
  split; [exact E|].
  exact (@clean_cell_words_normalized ascii_unicode ascii_capitalize_word
           ltac:(vm_compute; reflexivity) no_email _ _ eq_refl E).
Defined.

(** [clean_cell] with [cleanEmails] on: a present result holds at most one
    ['@'] (for any character database whose [lower] and [capitalize] keep
    the number of ['@']). *)
Theorem clean_cell_at_most_one_at {U : PyUnicode}
  (Hlow : forall s, count_occ N.eq_dec (py_lower s) 64 = count_occ N.eq_dec s 64)
  (Hcap : forall s, count_occ N.eq_dec (py_capitalize s) 64 = count_occ N.eq_dec s 64) :
  forall o raw r, clean_emails o = true -> clean_cell o (Some raw) = Some r ->
    (count_occ N.eq_dec r 64%N <= 1)%nat.
Proof.
  intros o raw r He H. unfold clean_cell in H. rewrite He in H. simpl in H.
  set (v := if sanitize_characters o then sanitize (strip raw) else strip raw) in H.
  destruct (contains 64 v) eqn:Hc.
  - destruct (email_match v) eqn:Hm; [|discriminate H]. injection H as <-.
    rewrite Hlow, (email_match_count v Hm). lia.
  - injection H as <-. rewrite (proj1 (count_occ_not_In _ _ _)); [lia|].
    intros Hin. apply in_join in Hin as [[Hin|[]]|[w [Hw Hin]]]; [discriminate Hin|].
    apply in_map_iff in Hw as [w0 [<- Hw0]].
    apply (count_occ_In N.eq_dec) in Hin. rewrite Hcap in Hin.
    apply (count_occ_In N.eq_dec) in Hin.
    assert (Hv : In 64 v) by exact (split_in v w0 64 Hw0 Hin).
    unfold contains in Hc. rewrite <- not_true_iff_false, existsb_exists in Hc.
    apply Hc. exists 64. split; [exact Hv|apply N.eqb_refl].
Qed.

Lemma clean_cell_at_most_one_at_witness :
  @clean_cell ascii_unicode all_on (Some (s2p " John@Example.COM ")) = Some (s2p "john@example.com")
  /\ (count_occ N.eq_dec (s2p "john@example.com") 64%N <= 1)%nat.
Proof.
  assert (E : @clean_cell ascii_unicode all_on (Some (s2p " John@Example.COM "))
              = Some (s2p "john@example.com")) by (vm_compute; reflexivity).
  split; [exact E|].
  exact (@clean_cell_at_most_one_at ascii_unicode ascii_lower_count_at ascii_capitalize_count_at
           all_on _ _ eq_refl E).
Defined.

(** [clean_cell] with [cleanEmails] off is idempotent on ASCII input:
    cleaning a cleaned cell changes nothing. *)
Theorem clean_cell_idempotent_no_email_ascii : forall o raw,
  clean_emails o = false -> forallb (fun c => c <? 128) raw = true ->
  @clean_cell ascii_unicode o (@clean_cell ascii_unicode o (Some raw))
  = @clean_cell ascii_unicode o (Some raw).
Proof.
  intros o raw He _.
  assert (Hcap : forall w, w <> [] -> forallb (fun c => negb (py_isspace (PyUnicode := ascii_unicode) c)) w = true ->
          py_capitalize (PyUnicode := ascii_unicode) w <> []
          /\ forallb (fun c => negb (py_isspace (PyUnicode := ascii_unicode) c)) (py_capitalize w) = true)
    by exact ascii_capitalize_word.
  unfold clean_cell at 2. rewrite He. simpl andb. cbv iota.
  set (v := if sanitize_characters o then sanitize (strip raw) else strip raw).
  set (ws := map py_capitalize (split v)).
  assert (Hf : Forall (fun w => w <> [] /\ forallb (fun c => negb (py_isspace c)) w = true) ws).
  { apply Forall_map. eapply Forall_impl; [|apply split_words].
    intros w [Hne Hw]. apply Hcap; assumption. }
  unfold clean_cell. rewrite He. simpl andb. cbv iota.
  assert (Hv : (if sanitize_characters o then sanitize (strip (join [32] ws)) else strip (join [32] ws))
               = join [32] ws).
  { rewrite strip_join by exact Hf. destruct (sanitize_characters o) eqn:Hs; [|reflexivity].
    unfold sanitize. apply forallb_filter_id, forallb_forall. intros c Hc.
    apply in_join in Hc as [[<-|[]]|[w [Hw Hc]]]; [reflexivity|].
    unfold ws in Hw. apply in_map_iff in Hw as [w0 [<- Hw0]].
    assert (Hk : forall c0, In c0 w0 -> sanitize_keep c0 = true).
    { intros c0 Hc0. assert (Hin : In c0 v) by exact (split_in v w0 c0 Hw0 Hc0).
      unfold v in Hin. unfold sanitize in Hin. apply filter_In in Hin. tauto. }
    destruct w0 as [|c0 w0]; [destruct Hc|].
    simpl in Hc. destruct Hc as [<-|Hc].
    - apply ascii_keep_upper, Hk. left. reflexivity.
    - apply in_map_iff in Hc as [c1 [<- Hc1]]. apply ascii_keep_lower, Hk. right. exact Hc1. }
  rewrite Hv, split_join by (reflexivity || exact Hf).
  unfold ws. rewrite map_map. f_equal. f_equal. apply map_ext. exact ascii_capitalize_idem.
Qed.

Lemma clean_cell_idempotent_no_email_ascii_witness :
  @clean_cell ascii_unicode no_email (@clean_cell ascii_unicode no_email (Some (s2p " a#b  c ")))
  = @clean_cell ascii_unicode no_email (Some (s2p " a#b  c ")).
Proof.
  exact (clean_cell_idempotent_no_email_ascii no_email (s2p " a#b  c ") eq_refl ltac:(vm_compute; reflexivity)).
Defined.

Lemma dedup_from_cons : forall seen r rs,
  dedup_from seen (r :: rs)
  = if existsb (row_eqb r) seen then dedup_from (r :: seen) rs else r :: dedup_from (r :: seen) rs.
Proof. intros seen r rs. unfold dedup_from. simpl. destruct (existsb (row_eqb r) seen); reflexivity. Qed.

Lemma existsb_row_in : forall r seen, existsb (row_eqb r) seen = true <-> In r seen.
Proof.
  intros r seen. rewrite existsb_exists. split.
  - intros [x [Hx E]]. apply row_eqb_true in E. subst. exact Hx.
  - intros H. exists r. split; [exact H|apply row_eqb_true; reflexivity].
Qed.

Lemma dedup_from_in : forall rows seen x,
  In x (dedup_from seen rows) <-> In x rows /\ ~ In x seen.
Proof.
  induction rows as [|r rs IH]; intros seen x; [simpl; tauto|].
  rewrite dedup_from_cons. destruct (existsb (row_eqb r) seen) eqn:E.
  - apply existsb_row_in in E. rewrite IH. simpl. split.
    + intros [H1 H2]. split; [right; exact H1|tauto].
    + intros [[<-|H1] H2]; [contradiction|]. split; [exact H1|]. intros [<-|H3]; contradiction.
  - rewrite <- not_true_iff_false, existsb_row_in in E. simpl. rewrite IH. simpl.
    split.
    + intros [<-|[H1 H2]]; [tauto|]. split; [right; exact H1|tauto].
    + intros [[<-|H1] H2]; [left; reflexivity|].
      destruct (row_eq_dec r x) as [->|Hne]; [left; reflexivity|].
      right. split; [exact H1|]. intros [H3|H3]; [congruence|contradiction].
Qed.

Lemma dedup_from_nodup : forall rows seen, NoDup (dedup_from seen rows).
Proof.
  induction rows as [|r rs IH]; intros seen; [constructor|].
  rewrite dedup_from_cons. destruct (existsb (row_eqb r) seen); [apply IH|].
  constructor; [|apply IH]. rewrite dedup_from_in. simpl. tauto.
Qed.

Lemma dedup_from_id : forall rows seen,
  NoDup rows -> (forall x, In x rows -> ~ In x seen) -> dedup_from seen rows = rows.
Proof.
  induction rows as [|r rs IH]; intros seen Hnd Hs; [reflexivity|].
  inversion Hnd as [|? ? Hr Hnd']; subst.
  rewrite dedup_from_cons.
  destruct (existsb (row_eqb r) seen) eqn:E.
  - apply existsb_row_in in E. exfalso. apply (Hs r); [left; reflexivity|exact E].
  - f_equal. apply IH; [exact Hnd'|]. intros x Hx [<-|Hin]; [contradiction|].
    apply (Hs x); [right; exact Hx|exact Hin].
Qed.

Lemma dedup_from_length : forall rows seen, (length (dedup_from seen rows) <= length rows)%nat.
Proof.
  induction rows as [|r rs IH]; intros seen; [simpl; lia|].
  rewrite dedup_from_cons. destruct (existsb (row_eqb r) seen); simpl; specialize (IH (r :: seen)); lia.
Qed.

(** [drop_duplicates] (line 130): the result has no two equal rows, the
    same rows as its input, is a fixed point of [drop_duplicates], and is no
    longer than its input. *)
Theorem drop_duplicates_distinct : forall rows,
  NoDup (drop_duplicates rows)
  /\ (forall x, In x (drop_duplicates rows) <-> In x rows)
  /\ drop_duplicates (drop_duplicates rows) = drop_duplicates rows
  /\ (length (drop_duplicates rows) <= length rows)%nat.
Proof.
  intros rows. change (drop_duplicates rows) with (dedup_from [] rows).
  split; [apply dedup_from_nodup|]. split.
  { intros x. rewrite dedup_from_in. simpl. tauto. }
  split; [|apply dedup_from_length].
  change (drop_duplicates (dedup_from [] rows)) with (dedup_from [] (dedup_from [] rows)).
  apply dedup_from_id; [apply dedup_from_nodup|]. intros x _ [].
Qed.

(** [excel_cleaner] (lines 88-137): a 200 answer leaves the world as it
    was and its table is made of the cleaned parsed rows: no more rows than
    the upload, pairwise distinct when [removeDuplicates] is on, one per
    upload row when it is off. *)
Theorem excel_cleaner_output {U : PyUnicode} : forall req en w df w',
  excel_cleaner req en w = (Ok {| status := 200; resp_body := BExcel df |}, w') ->
  w' = w /\
  exists f rows, req_file req = Some f /\ up_table f = Some rows /\
    let o := {| remove_duplicates := form_flag (s2p "removeDuplicates") (req_form req);
                clean_emails := form_flag (s2p "cleanEmails") (req_form req);
                sanitize_characters := form_flag (s2p "sanitizeCharacters") (req_form req) |} in
    (forall x, In x df <-> exists r0, In r0 rows /\ x = map (clean_cell o) r0)
    /\ (length df <= length rows)%nat
    /\ (remove_duplicates o = true -> NoDup df)
    /\ (remove_duplicates o = false -> length df = length rows).
Proof.
  intros req en w df w' H. unfold excel_cleaner in H.
  destruct (req_file req) as [f|] eqn:Hf; [|discriminate H].
  set (o := {| remove_duplicates := form_flag (s2p "removeDuplicates") (req_form req);
               clean_emails := form_flag (s2p "cleanEmails") (req_form req);
               sanitize_characters := form_flag (s2p "sanitizeCharacters") (req_form req) |}) in H.
  assert (Hrows : exists rows, up_table f = Some rows /\ df = clean_table o rows /\ w' = w).
  { destruct (endswith (py_lower (up_filename f)) (s2p ".csv"));
      [|destruct (endswith (py_lower (up_filename f)) (s2p ".xlsx"))];
      destruct (up_table f) as [rows|]; unfold ret in H; try discriminate H;
      injection H as Hdf Hw; exists rows; auto. }
  destruct Hrows as [rows [Ht [-> ->]]]. split; [reflexivity|].
  exists f, rows. split; [reflexivity|]. split; [exact Ht|]. cbv zeta. fold o.
  unfold clean_table. destruct (remove_duplicates o) eqn:Hrd.
  - change (drop_duplicates (map (map (clean_cell o)) rows))
      with (dedup_from [] (map (map (clean_cell o)) rows)).
    split.
    { intros x. rewrite dedup_from_in, in_map_iff. simpl. split.
      - intros [[r0 [<- H0]] _]. exists r0. auto.
      - intros [r0 [H0 ->]]. split; [exists r0; auto|tauto]. }
    split; [eapply Nat.le_trans; [apply dedup_from_length|]; rewrite length_map; apply Nat.le_refl|].
    split; [intros _; apply dedup_from_nodup|discriminate].
  - split.
    { intros x. rewrite in_map_iff. split; intros [r0 [H1 H2]]; exists r0; auto. }
    split; [rewrite length_map; apply Nat.le_refl|]. split; [discriminate|]. intros _. apply length_map.
Qed.

Lemma excel_cleaner_output_witness :
  @excel_cleaner ascii_unicode {| req_file := Some sample_table; req_form := [] |}
    (sample_env (fun _ => GsNotFound)) empty_static
  = (Ok {| status := 200; resp_body := BExcel [[Some (s2p "Ann"); Some (s2p "a@b.fr")];
                                              [None; None]] |}, empty_static)
  /\ NoDup [[Some (s2p "Ann"); Some (s2p "a@b.fr")]; [None; None]].
Proof.
  assert (E : @excel_cleaner ascii_unicode {| req_file := Some sample_table; req_form := [] |}
    (sample_env (fun _ => GsNotFound)) empty_static
  = (Ok {| status := 200; resp_body := BExcel [[Some (s2p "Ann"); Some (s2p "a@b.fr")];
                                              [None; None]] |}, empty_static))
    by (vm_compute; reflexivity).
  split; [exact E|].
  destruct (@excel_cleaner_output ascii_unicode _ _ _ _ _ E)
    as [_ [f [rows [_ [_ [_ [_ [Hnd _]]]]]]]].
  apply Hnd. reflexivity.
Defined.

(** [cleanup_old_files] (lines 29-43): without a [static] directory
    [os.listdir] raises, so every route answers Flask's 500 and changes
    nothing. *)
Theorem missing_static_fails_every_route {U : PyUnicode} : forall r req en w,
  static_dir w = None -> handle r req en w = (Ok (error 500 InternalServerError), w).
Proof.
  intros r req en w Hd. unfold handle, bind, catch, cleanup_old_files. rewrite Hd. reflexivity.
Qed.

Lemma missing_static_fails_every_route_witness :
  @handle ascii_unicode RPdfCompress {| req_file := Some (sample_upload "a.pdf" 1000); req_form := [] |}
    (sample_env (fun _ => GsExit 0 (Some 900))) {| static_dir := None; trace := [] |}
  = (Ok (error 500 InternalServerError), {| static_dir := None; trace := [] |}).
Proof. exact (missing_static_fails_every_route _ _ _ {| static_dir := None; trace := [] |} eq_refl). Defined.

(** [cleanup_old_files] then the route: with a [static] directory of
    distinct names, the route runs on the directory stripped of the files
    older than 24 hours, one deletion event per stale file, in listing
    order. *)
Theorem handle_after_cleanup {U : PyUnicode} : forall r req en w fs,
  static_dir w = Some fs -> NoDup (map fe_name fs) ->
  handle r req en w
  = route_handler r req en
      {| static_dir := Some (filter (fun g => negb (is_stale (now en - 24 * 3600) g)) fs);
         trace := trace w ++ map (fun g => EvDelete (static_path (fe_name g)))
                                 (filter (is_stale (now en - 24 * 3600)) fs) |}.
Proof.
  intros r req en w fs Hdir Hnd.
  destruct w as [d tr]; simpl in Hdir; subst d.
  unfold handle, bind, catch, cleanup_old_files. simpl static_dir.
  pose proof (remove_stale_spec (now en - 24 * 3600) fs [] tr en Hnd) as Hrs.
  simpl app in Hrs. cbv beta iota. rewrite Hrs. reflexivity.
Qed.

Lemma handle_after_cleanup_witness :
  @handle ascii_unicode RExtract {| req_file := Some (sample_upload "notes.txt" 10); req_form := [] |}
    (sample_env (fun _ => GsNotFound)) stale_static
  = @route_handler ascii_unicode RExtract {| req_file := Some (sample_upload "notes.txt" 10); req_form := [] |}
      (sample_env (fun _ => GsNotFound))
      {| static_dir := Some []; trace := [EvDelete (s2p "static/old.pdf")] |}.
Proof.
  exact (handle_after_cleanup RExtract _ (sample_env (fun _ => GsNotFound)) stale_static _ eq_refl
           ltac:(repeat constructor; simpl; tauto)).
Defined.

(** [extract_pdf] and [excel_cleaner] touch neither the files nor the
    processes: they answer 200, 400 or 500, and 500 only when an uploaded
    file could not be parsed. *)
Theorem parse_routes_pure {U : PyUnicode} : forall r req en w,
  r <> RPdfCompress ->
  exists resp, route_handler r req en w = (Ok resp, w)
    /\ (status resp = 200 \/ status resp = 400 \/ status resp = 500)
    /\ (status resp = 500 -> exists f, req_file req = Some f
          /\ (r = RExtract -> up_pages f = None) /\ (r = RExcelCleaner -> up_table f = None)).
Proof.
  intros r req en w Hr. destruct r; [| |congruence]; cbn [route_handler].
  - unfold extract_pdf. destruct (req_file req) as [f|] eqn:Hf; [|eexists; split; [reflexivity|split; [auto|discriminate]]].
    destruct (negb (endswith (py_lower (up_filename f)) (s2p ".pdf"))); [eexists; split; [reflexivity|split; [auto|discriminate]]|].
    destruct (up_pages f) eqn:Hp; eexists; (split; [reflexivity|]); simpl; (split; [auto|]);
      try discriminate; intros _; exists f; split; [reflexivity|]; split; [auto|discriminate].
  - unfold excel_cleaner. destruct (req_file req) as [f|] eqn:Hf; [|eexists; split; [reflexivity|split; [auto|discriminate]]].
    destruct (endswith (py_lower (up_filename f)) (s2p ".csv"));
      [|destruct (endswith (py_lower (up_filename f)) (s2p ".xlsx"))];
      try destruct (up_table f) eqn:Ht; eexists; (split; [reflexivity|]); simpl; (split; [auto|]);
      try discriminate; intros _; exists f; split; [reflexivity|]; split; [discriminate|auto].
Qed.

Lemma parse_routes_pure_witness :
  exists resp, @route_handler ascii_unicode RExtract
    {| req_file := Some (sample_upload "a.pdf" 10); req_form := [] |}
    (sample_env (fun _ => GsNotFound)) stale_static = (Ok resp, stale_static)
    /\ status resp = 500.
Proof.
  destruct (@parse_routes_pure ascii_unicode RExtract
    {| req_file := Some (sample_upload "a.pdf" 10); req_form := [] |}
    (sample_env (fun _ => GsNotFound)) stale_static ltac:(discriminate)) as [resp [H _]].
  exists resp. split; [exact H|].
  assert (E : @route_handler ascii_unicode RExtract
    {| req_file := Some (sample_upload "a.pdf" 10); req_form := [] |}
    (sample_env (fun _ => GsNotFound)) stale_static = (Ok (error 500 ExtractionFailed), stale_static))
    by (vm_compute; reflexivity).
  rewrite E in H. injection H as <-. reflexivity.
Defined.

Lemma lookup_without_same : forall n fs, lookup_file n (without n fs) = None.
Proof.
  intros n; induction fs as [|f fs IH]; [reflexivity|]. unfold without in *. simpl.
  destruct (pystr_eqb (fe_name f) n) eqn:E; simpl; [exact IH|]. rewrite E. exact IH.
Qed.

Lemma lookup_without_other : forall n m fs, n <> m ->
  lookup_file n (without m fs) = lookup_file n fs.
Proof.
  intros n m fs Hne; induction fs as [|f fs IH]; [reflexivity|]. unfold without in *. simpl.
  destruct (pystr_eqb (fe_name f) m) eqn:E; simpl.
  - apply pystr_eqb_eq in E. destruct (pystr_eqb (fe_name f) n) eqn:E'.
    + apply pystr_eqb_eq in E'. congruence.
    + exact IH.
  - destruct (pystr_eqb (fe_name f) n); [reflexivity|exact IH].
Qed.

Lemma lookup_app_single : forall n fs fe,
  lookup_file n (fs ++ [fe])
  = match lookup_file n fs with
    | Some g => Some g
    | None => if pystr_eqb (fe_name fe) n then Some fe else None
    end.
Proof.
  intros n fs fe; induction fs as [|f fs IH]; simpl; [destruct (pystr_eqb (fe_name fe) n); reflexivity|].
  destruct (pystr_eqb (fe_name f) n); [reflexivity|exact IH].
Qed.

Lemma lookup_written : forall n fs fe, fe_name fe = n ->
  lookup_file n (without n fs ++ [fe]) = Some fe.
Proof.
  intros n fs fe <-. rewrite lookup_app_single, lookup_without_same, pystr_eqb_refl. reflexivity.
Qed.

Lemma lookup_written_other : forall n m fs fe, fe_name fe = m -> n <> m ->
  lookup_file n (without m fs ++ [fe]) = lookup_file n fs.
Proof.
  intros n m fs fe <- Hne. rewrite lookup_app_single, lookup_without_other by exact Hne.
  destruct (lookup_file n fs); [reflexivity|].
  destruct (pystr_eqb (fe_name fe) n) eqn:E; [apply pystr_eqb_eq in E; congruence|reflexivity].
Qed.

Lemma input_output_names_differ : forall b u1 u2,
  b ++ s2p "_input_" ++ u1 ++ s2p ".pdf" <> b ++ s2p "_compressed_" ++ u2 ++ s2p ".pdf".
Proof. intros b u1 u2 H. apply app_inv_head in H. discriminate H. Qed.

Lemma compress_body_files {U : PyUnicode} : forall f req b mode en w r w',
  compress_body f req b mode en w = (Ok {| status := 200; resp_body := BCompress r |}, w') ->
  exists fs, static_dir w' = Some fs
    /\ original_size r = up_size f
    /\ url r = s2p "http://localhost:8000/static/" ++ (b ++ s2p "_compressed_" ++ uuid_output en ++ s2p ".pdf")
    /\ lookup_file (b ++ s2p "_input_" ++ uuid_input en ++ s2p ".pdf") fs = None
    /\ exists fe, lookup_file (b ++ s2p "_compressed_" ++ uuid_output en ++ s2p ".pdf") fs = Some fe
                  /\ fe_size fe = compressed_size r.
Proof.
  intros f req b mode en w r w' H.
  unfold compress_body, raise_if_none, bind, ask, ret, makedirs_static, run_gs, write_file, getsize,
    remove, log_append, emit, raise in H.
  cbv beta iota zeta in H. cbn [static_dir trace fst snd] in H.
  repeat match type of H with
         | context [match ?x with _ => _ end] =>
             match x with
             | context [match _ with _ => _ end] => fail 1
             | _ => destruct x eqn:?; cbv beta iota zeta in H; cbn [static_dir trace fst snd] in *
             end
         end; try discriminate H.
  all: pose proof (f_equal snd H) as Hw; pose proof (f_equal fst H) as Hx; clear H;
       cbn [fst snd] in Hw, Hx; subst w'; injection Hx as Hx; subst r.
  all: eexists; split; [reflexivity|]; cbn [original_size url compressed_size].
  all: repeat match goal with
       | Hh : lookup_file (?b0 ++ s2p "_input_" ++ _) (without _ _ ++ [_]) = Some ?g |- _ =>
           rewrite lookup_written in Hh by reflexivity; injection Hh as Hh; subst g
       | Hh : Some ?x = Some ?g |- _ => injection Hh as Hh; subst g
       end.
  all: split; [reflexivity|]; split; [reflexivity|]; split; [apply lookup_without_same|].
  all: eexists; rewrite lookup_without_other by (apply not_eq_sym, input_output_names_differ);
       split; [eassumption|reflexivity].
Qed.

(** [pdf_compress] (lines 143-236), success: [originalSize] is the
    uploaded size, the url names the output file, and afterwards the input
    file is gone and the output file is present with [compressedSize]
    bytes. *)
Theorem pdf_compress_success_files {U : PyUnicode} : forall req en w r w',
  pdf_compress req en w = (Ok {| status := 200; resp_body := BCompress r |}, w') ->
  exists f fs, req_file req = Some f /\ static_dir w' = Some fs /\
    let b := splitext_root (secure_filename en (up_filename f)) in
    original_size r = up_size f
    /\ url r = s2p "http://localhost:8000/static/" ++ (b ++ s2p "_compressed_" ++ uuid_output en ++ s2p ".pdf")
    /\ lookup_file (b ++ s2p "_input_" ++ uuid_input en ++ s2p ".pdf") fs = None
    /\ exists fe, lookup_file (b ++ s2p "_compressed_" ++ uuid_output en ++ s2p ".pdf") fs = Some fe
                  /\ fe_size fe = compressed_size r.
Proof.
  intros req en w r w' H. unfold pdf_compress in H.
  destruct (req_file req) as [f|]; [|discriminate H].
  destruct (negb (endswith (py_lower (up_filename f)) (s2p ".pdf"))); [discriminate H|].
  unfold bind, ask, catch in H.
  destruct (compress_body f req (splitext_root (secure_filename en (up_filename f)))
              (form_get_default (s2p "mode") (s2p "lossless") (req_form req)) en w)
    as [[x|e] w1] eqn:E.
  - injection H as Hx Hw. subst x w1.
    destruct (compress_body_files _ _ _ _ _ _ _ _ E) as [fs [Hfs Hrest]].
    exists f, fs. auto.
  - destruct e; discriminate H.
Qed.

Lemma pdf_compress_success_files_witness :
  exists r w', @pdf_compress ascii_unicode {| req_file := Some (sample_upload "a.pdf" 1000000); req_form := [] |}
    (sample_env (fun _ => GsExit 0 (Some 750000))) empty_static
    = (Ok {| status := 200; resp_body := BCompress r |}, w')
  /\ original_size r = 1000000
  /\ exists fs, static_dir w' = Some fs
     /\ lookup_file (s2p "a_input_u1.pdf") fs = None
     /\ exists fe, lookup_file (s2p "a_compressed_u2.pdf") fs = Some fe /\ fe_size fe = compressed_size r.
Proof.
  assert (E : @pdf_compress ascii_unicode {| req_file := Some (sample_upload "a.pdf" 1000000); req_form := [] |}
    (sample_env (fun _ => GsExit 0 (Some 750000))) empty_static
  = (Ok {| status := 200;
           resp_body := BCompress {| url := s2p "http://localhost:8000/static/a_compressed_u2.pdf";
                                     original_size := 1000000; compressed_size := 750000;
                                     alert := None; gain := 25%float |} |},
     {| static_dir := Some [{| fe_name := s2p "a_compressed_u2.pdf"; fe_size := 750000;
                               fe_mtime := 100000 |}];
        trace := [EvWrite (s2p "static/a_input_u1.pdf");
                  EvRun (compress_command false (s2p "/prepress") (s2p "a_compressed_u2.pdf")
                           (s2p "a_input_u1.pdf") None);
                  EvWrite (s2p "static/a_compressed_u2.pdf");
                  EvDelete (s2p "static/a_input_u1.pdf");
                  EvLogAppend (s2p "lossless")] |})) by (vm_compute; reflexivity).
  do 2 eexists. split; [exact E|].
  destruct (pdf_compress_success_files _ _ _ _ _ E) as [f [fs [Hf [Hfs [Ho [_ [Hin Hout]]]]]]].
  injection Hf as <-. split; [exact Ho|]. exists fs. split; [exact Hfs|]. split; [exact Hin|exact Hout].
Defined.

Ltac crunch :=
  repeat progress (
          rewrite ?lookup_written by reflexivity;
          rewrite ?lookup_written_other by (reflexivity || apply input_output_names_differ);
          rewrite ?lookup_written by reflexivity;
          cbv beta iota zeta; cbn [static_dir trace fst snd fe_size];
          try match goal with
          | |- context [match ?x with _ => _ end] =>
              match x with
              | context [match _ with _ => _ end] => fail 1
              | _ => destruct x eqn:?; cbv beta iota zeta; cbn [static_dir trace fst snd fe_size]
              end
          end).

(** [pdf_compress] when Ghostscript is missing (500 [CompressionFailed])
    or exits with a non-zero code (500 [ConverterFailed]): the input file
    is left in [static] with the uploaded size. *)
Theorem pdf_compress_converter_failure {U : PyUnicode} : forall req f en w g,
  req_file req = Some f ->
  endswith (py_lower (up_filename f)) (s2p ".pdf") = true ->
  (forall argv, gs en argv = g) ->
  match g with GsNotFound => True | GsExit code _ => code <> 0%Z end ->
  fst (pdf_compress req en w)
    = Ok (error 500 (match g with GsNotFound => CompressionFailed | GsExit _ _ => ConverterFailed end))
  /\ exists fs fe, static_dir (snd (pdf_compress req en w)) = Some fs
       /\ lookup_file (splitext_root (secure_filename en (up_filename f))
                        ++ s2p "_input_" ++ uuid_input en ++ s2p ".pdf") fs = Some fe
       /\ fe_size fe = up_size f.
Proof.
  intros req f en w g Hf Hpdf Hgs Hg.
  unfold pdf_compress. rewrite Hf, Hpdf. cbn [negb].
  unfold compress_body, raise_if_none, makedirs_static, run_gs, write_file,
    getsize, remove, log_append, emit, raise, bind, ask, catch, ret.
  cbv beta iota zeta. rewrite !Hgs. cbv beta iota zeta. cbn [static_dir trace fst snd].
  destruct g as [|code out]; [|destruct (Z.eqb_spec code 0) as [E|E]; [contradiction|]].
  all: crunch; try congruence.
  all: split; [reflexivity|]; do 2 eexists; split; [reflexivity|].
  all: split; [first [ apply lookup_written; reflexivity
                     | rewrite lookup_written_other by (reflexivity || apply input_output_names_differ);
                       apply lookup_written; reflexivity ]|reflexivity].
Qed.

Lemma pdf_compress_converter_failure_witness :
  fst (@pdf_compress ascii_unicode {| req_file := Some (sample_upload "a.pdf" 1000); req_form := [] |}
         (sample_env (fun _ => GsExit 1 None)) empty_static) = Ok (error 500 ConverterFailed)
  /\ exists fs fe, static_dir (snd (@pdf_compress ascii_unicode
                      {| req_file := Some (sample_upload "a.pdf" 1000); req_form := [] |}
                      (sample_env (fun _ => GsExit 1 None)) empty_static)) = Some fs
       /\ lookup_file (s2p "a_input_u1.pdf") fs = Some fe /\ fe_size fe = 1000.
Proof.
  exact (@pdf_compress_converter_failure ascii_unicode
    {| req_file := Some (sample_upload "a.pdf" 1000); req_form := [] |} (sample_upload "a.pdf" 1000)
    (sample_env (fun _ => GsExit 1 None)) empty_static (GsExit 1 None)
    eq_refl ltac:(vm_compute; reflexivity) (fun _ => eq_refl) ltac:(discriminate)).
Defined.

(** [pdf_compress] on an empty PDF upload with a working converter: the
    gain computation divides by zero, the answer is 500
    [CompressionFailed], the input file is already deleted, the output file
    stays, and no audit-log line is written. *)
Theorem pdf_compress_empty_upload {U : PyUnicode} : forall req f en w n,
  req_file req = Some f ->
  endswith (py_lower (up_filename f)) (s2p ".pdf") = true ->
  up_size f = 0 ->
  (forall argv, gs en argv = GsExit 0 (Some n)) ->
  let b := splitext_root (secure_filename en (up_filename f)) in
  fst (pdf_compress req en w) = Ok (error 500 CompressionFailed)
  /\ (exists fs fe, static_dir (snd (pdf_compress req en w)) = Some fs
       /\ lookup_file (b ++ s2p "_input_" ++ uuid_input en ++ s2p ".pdf") fs = None
       /\ lookup_file (b ++ s2p "_compressed_" ++ uuid_output en ++ s2p ".pdf") fs = Some fe
       /\ fe_size fe = n)
  /\ (forall m, In (EvLogAppend m) (trace (snd (pdf_compress req en w))) -> In (EvLogAppend m) (trace w)).
Proof.
  intros req f en w n Hf Hpdf Hsz Hgs b. subst b.
  unfold pdf_compress. rewrite Hf, Hpdf. cbn [negb].
  unfold compress_body, raise_if_none, makedirs_static, run_gs, write_file,
    getsize, remove, log_append, emit, raise, bind, ask, catch, ret.
  cbv beta iota zeta. rewrite !Hgs. replace ((0 =? 0)%Z) with true by reflexivity.
  cbv beta iota zeta. cbn [static_dir trace fst snd].
  crunch; try congruence.
  all: try (match goal with Hh : lookup_file _ _ = None |- _ =>
              rewrite lookup_written in Hh by reflexivity; discriminate Hh end).
  all: try (match goal with Hh : gain_percent _ _ = Some _ |- _ =>
              rewrite Hsz in Hh; discriminate Hh end).
  all: split; [reflexivity|]; split.
  all: try (do 2 eexists; split; [reflexivity|]; split; [apply lookup_without_same|];
            split; [rewrite lookup_without_other by (apply not_eq_sym, input_output_names_differ);
                    apply lookup_written; reflexivity|reflexivity]).
  all: intros m Hin; rewrite !in_app_iff in Hin; cbn [In] in Hin; intuition discriminate.
Qed.

Lemma pdf_compress_empty_upload_witness :
  fst (@pdf_compress ascii_unicode {| req_file := Some (sample_upload "a.pdf" 0); req_form := [] |}
         (sample_env (fun _ => GsExit 0 (Some 300))) empty_static) = Ok (error 500 CompressionFailed)
  /\ (exists fs fe, static_dir (snd (@pdf_compress ascii_unicode
                      {| req_file := Some (sample_upload "a.pdf" 0); req_form := [] |}
                      (sample_env (fun _ => GsExit 0 (Some 300))) empty_static)) = Some fs
       /\ lookup_file (s2p "a_input_u1.pdf") fs = None
       /\ lookup_file (s2p "a_compressed_u2.pdf") fs = Some fe /\ fe_size fe = 300)
  /\ (forall m, In (EvLogAppend m) (trace (snd (@pdf_compress ascii_unicode
                      {| req_file := Some (sample_upload "a.pdf" 0); req_form := [] |}
                      (sample_env (fun _ => GsExit 0 (Some 300))) empty_static))) ->
                In (EvLogAppend m) (trace empty_static)).
Proof.
  exact (@pdf_compress_empty_upload ascii_unicode
    {| req_file := Some (sample_upload "a.pdf" 0); req_form := [] |} (sample_upload "a.pdf" 0)
    (sample_env (fun _ => GsExit 0 (Some 300))) empty_static 300
    eq_refl ltac:(vm_compute; reflexivity) eq_refl (fun _ => eq_refl)).
Defined.


